(** * aws-pulumi-static-site: the stack definition of [main.go]

    [main.go] is one routine, the function handed to [pulumi.Run].  It reads
    the site directory, looks the DNS zone up and registers a fixed graph of
    resources with the provisioning engine, returning the first error any of
    these steps reports.

    The embedding keeps that shape.  The engine and the file system are an
    oracle ([Engine]) that answers every call from the history of the run; the
    routine is a program in a state monad over the run context ([Context]: the
    calls made so far with their answers, and the exported outputs).  Go's
    [x, err := f(...); if err != nil { return err }] is written out as it is
    in the source, with the notation [x <-? f ... ;; k].  Values that the
    engine only resolves later ([bucket.ID()], [certificate.Arn], ...) are
    symbolic ([StringInput]). *)

From stdpp Require Import base strings list gmap pretty.

Local Open Scope Z_scope.

(** ** The pulumi SDK values the program builds *)

(** A registered resource, as the engine hands it back ([*s3.Bucket],
    [*acm.Certificate], ...). *)
Inductive Resource := Res (n : N).

Global Instance Resource_eq_dec : EqDecision Resource.
Proof. solve_decision. Defined.

(** The output properties of resources that [main] reads. *)
Inductive Property :=
| Arn
| BucketRegionalDomainName
| CloudfrontAccessIdentityPath
| IamArn
| DomainName
| HostedZoneId.

(** The two fields of a certificate's domain validation option that [main]
    reads. *)
Inductive ValidationField := ResourceRecordName | ResourceRecordValue.

(** [pulumi.StringInput]: a plain string or a value the engine resolves. *)
Inductive StringInput :=
| String (s : string)
  (** [pulumi.String(s)] *)
| ID (r : Resource)
  (** [r.ID()] *)
| Out (r : Resource) (p : Property)
  (** [r.Arn], [r.BucketRegionalDomainName], ... *)
| DomainValidationOptions_Index (r : Resource) (i : Z) (f : ValidationField)
  (** [r.DomainValidationOptions.Index(pulumi.Int(i)).ResourceRecordName().Elem()]
      and the same with [ResourceRecordValue] *)
| Sprintf_v (x : StringInput) (suffix : string).
  (** [pulumi.Sprintf("%v" + suffix, x)] *)

(** [pulumi.NewFileAsset(path)] *)
Inductive Asset := NewFileAsset (path : string).

(** [pulumi.ToStringMap] *)
Definition ToStringMap (m : gmap string string) : gmap string StringInput :=
  String <$> m.

(** Go's [error] values. *)
Inductive Error := Err (msg : string).

(** [os.DirEntry]; [main] only calls [Name()]. *)
Module DirEntry.
Record t := mk { Name : string; IsDir : bool }.
End DirEntry.

(** ** The structs of [main.go] *)

Module Project.
Record t := mk { name : string }.
End Project.

Module Environment.
Record t := mk { name : string }.
End Environment.

Module Site.
Record t := mk { dir : string }.
End Site.

Module Domain.
Record t := mk { name : string }.
End Domain.

Module Tags.
Record t := mk { tags : gmap string string }.
End Tags.

Module WebBucket.
Record t := mk { name : string; indexDocument : string; errorDocument : string }.
End WebBucket.

(** ** Resource arguments (the fields [main] sets) *)

Module LookupZoneArgs.
Record t := mk { Name : option string }.
End LookupZoneArgs.

Module LookupZoneResult.
Record t := mk { Id : string }.
End LookupZoneResult.

Module BucketWebsiteArgs.
Record t := mk { IndexDocument : StringInput; ErrorDocument : StringInput }.
End BucketWebsiteArgs.

Module BucketArgs.
Record t := mk {
  Bucket : StringInput;
  Website : BucketWebsiteArgs.t;
  Tags : gmap string StringInput }.
End BucketArgs.

Module BucketPublicAccessBlockArgs.
Record t := mk {
  Bucket : StringInput;
  BlockPublicAcls : bool;
  BlockPublicPolicy : bool;
  IgnorePublicAcls : bool;
  RestrictPublicBuckets : bool }.
End BucketPublicAccessBlockArgs.

Module BucketObjectArgs.
Record t := mk {
  Key : StringInput;
  Bucket : StringInput;
  Source : Asset;
  ContentType : StringInput;
  Tags : gmap string StringInput }.
End BucketObjectArgs.

Module CertificateArgs.
Record t := mk {
  DomainName : StringInput;
  ValidationMethod : StringInput;
  SubjectAlternativeNames : list StringInput;
  Tags : gmap string StringInput }.
End CertificateArgs.

Module RecordAliasArgs.
Record t := mk {
  Name : StringInput;
  ZoneId : StringInput;
  EvaluateTargetHealth : bool }.
End RecordAliasArgs.

(** [Ttl], [Records] and [Aliases] are optional: the validation records set
    the first two, the alias records the third. *)
Module RecordArgs.
Record t := mk {
  ZoneId : StringInput;
  Name : StringInput;
  Type_ : StringInput;
  Ttl : option Z;
  Records : list StringInput;
  Aliases : list RecordAliasArgs.t }.
End RecordArgs.

Module OriginAccessIdentityArgs.
Record t := mk { Comment : StringInput }.
End OriginAccessIdentityArgs.

Module DistributionOriginS3OriginConfigArgs.
Record t := mk { OriginAccessIdentity : StringInput }.
End DistributionOriginS3OriginConfigArgs.

Module DistributionOriginArgs.
Record t := mk {
  DomainName : StringInput;
  OriginId : StringInput;
  S3OriginConfig : DistributionOriginS3OriginConfigArgs.t }.
End DistributionOriginArgs.

Module DistributionDefaultCacheBehaviorForwardedValuesCookiesArgs.
Record t := mk { Forward : StringInput }.
End DistributionDefaultCacheBehaviorForwardedValuesCookiesArgs.

Module DistributionDefaultCacheBehaviorForwardedValuesArgs.
Record t := mk {
  QueryString : bool;
  Cookies : DistributionDefaultCacheBehaviorForwardedValuesCookiesArgs.t }.
End DistributionDefaultCacheBehaviorForwardedValuesArgs.

Module DistributionDefaultCacheBehaviorArgs.
Record t := mk {
  AllowedMethods : list StringInput;
  CachedMethods : list StringInput;
  TargetOriginId : StringInput;
  ForwardedValues : DistributionDefaultCacheBehaviorForwardedValuesArgs.t;
  ViewerProtocolPolicy : StringInput;
  MinTtl : Z;
  DefaultTtl : Z;
  MaxTtl : Z }.
End DistributionDefaultCacheBehaviorArgs.

Module DistributionRestrictionsGeoRestrictionArgs.
Record t := mk { RestrictionType : StringInput }.
End DistributionRestrictionsGeoRestrictionArgs.

Module DistributionRestrictionsArgs.
Record t := mk { GeoRestriction : DistributionRestrictionsGeoRestrictionArgs.t }.
End DistributionRestrictionsArgs.

Module DistributionViewerCertificateArgs.
Record t := mk {
  CloudfrontDefaultCertificate : bool;
  AcmCertificateArn : StringInput;
  SslSupportMethod : StringInput;
  MinimumProtocolVersion : StringInput }.
End DistributionViewerCertificateArgs.

Module DistributionArgs.
Record t := mk {
  Origins : list DistributionOriginArgs.t;
  Enabled : bool;
  HttpVersion : StringInput;
  IsIpv6Enabled : bool;
  DefaultRootObject : StringInput;
  Aliases : list StringInput;
  DefaultCacheBehavior : DistributionDefaultCacheBehaviorArgs.t;
  PriceClass : StringInput;
  Restrictions : DistributionRestrictionsArgs.t;
  ViewerCertificate : DistributionViewerCertificateArgs.t;
  Tags : gmap string StringInput }.
End DistributionArgs.

Module GetPolicyDocumentStatementPrincipalArgs.
Record t := mk { Type_ : StringInput; Identifiers : list StringInput }.
End GetPolicyDocumentStatementPrincipalArgs.

Module GetPolicyDocumentStatementArgs.
Record t := mk {
  Sid : StringInput;
  Principals : list GetPolicyDocumentStatementPrincipalArgs.t;
  Actions : list StringInput;
  Resources : list StringInput }.
End GetPolicyDocumentStatementArgs.

Module GetPolicyDocumentOutputArgs.
Record t := mk {
  PolicyId : StringInput;
  Version : StringInput;
  Statements : list GetPolicyDocumentStatementArgs.t }.
End GetPolicyDocumentOutputArgs.

(** [iam.GetPolicyDocumentResultOutput]: the policy document the engine
    renders from the arguments; [Json] is the one field [main] reads from it,
    inside [ApplyT]. *)
Inductive GetPolicyDocumentResultOutput :=
| GetPolicyDocumentOutput (args : GetPolicyDocumentOutputArgs.t).

Inductive PolicyInput :=
| Json (doc : GetPolicyDocumentResultOutput).

Module BucketPolicyArgs.
Record t := mk { Bucket : StringInput; Policy : PolicyInput }.
End BucketPolicyArgs.

(** ** Calls against the run context *)

(** A resource declaration: the constructor called, the logical name and the
    arguments. *)
Inductive Declaration :=
| S3Bucket (name : string) (args : BucketArgs.t)
| S3BucketPublicAccessBlock (name : string) (args : BucketPublicAccessBlockArgs.t)
| S3BucketObject (name : string) (args : BucketObjectArgs.t)
| AcmCertificate (name : string) (args : CertificateArgs.t)
| Route53Record (name : string) (args : RecordArgs.t)
| CloudfrontOriginAccessIdentity (name : string) (args : OriginAccessIdentityArgs.t)
| CloudfrontDistribution (name : string) (args : DistributionArgs.t)
| S3BucketPolicy (name : string) (args : BucketPolicyArgs.t).

(** One step of a run: the call and what it returned. *)
Inductive Event :=
| ReadDir (path : string) (r : Error + list DirEntry.t)
| LookupZone (args : LookupZoneArgs.t) (r : Error + LookupZoneResult.t)
| NewResource (d : Declaration) (r : Error + Resource).

(** What answers the calls: the file system for [os.ReadDir], the engine for
    the rest.  An answer may depend on everything that happened before. *)
Record Engine := {
  readDir : list Event → string → Error + list DirEntry.t;
  lookupZone : list Event → LookupZoneArgs.t → Error + LookupZoneResult.t;
  registerResource : list Event → Declaration → Error + Resource }.

(** [*pulumi.Context] as far as [main] touches it: the calls made in this run,
    oldest first, and the exported stack outputs. *)
Record Context := {
  events : list Event;
  exports : gmap string StringInput }.

Definition Run (A : Type) : Type := Context → A * Context.

Definition ret {A} (a : A) : Run A := λ ctx, (a, ctx).

Definition bind {A B} (m : Run A) (k : A → Run B) : Run B :=
  λ ctx, let '(a, ctx') := m ctx in k a ctx'.

Declare Scope run_scope.
Delimit Scope run_scope with run.
Bind Scope run_scope with Run.

Notation "x <- m ;; k" := (bind m (λ x, k))
  (at level 100, m at next level, right associativity) : run_scope.
Notation "m ;; k" := (bind m (λ _, k))
  (at level 100, right associativity) : run_scope.

(** [x, err := m; if err != nil { return err }; k] *)
Notation "x <-? m ;; k" :=
  (bind m (λ r, match r with inl err => ret (Some err) | inr x => k end))
  (at level 100, m at next level, right associativity) : run_scope.

(** A loop whose body may return from the enclosing function:
    [err := m; if err != nil { return err }; k], where [m] is the loop. *)
Notation "'check' m ;; k" :=
  (bind m (λ r, match r with Some err => ret (Some err) | None => k end))
  (at level 100, m at next level, right associativity) : run_scope.

Local Open Scope run_scope.

(** [for _, x := range xs { body }], where [body x] answers [Some err] when
    it executes [return err]. *)
Fixpoint range {A} (xs : list A) (body : A → Run (option Error)) : Run (option Error) :=
  match xs with
  | [] => ret None
  | x :: xs' => check body x ;; range xs' body
  end.

(** [for i := lo; i <= hi; i++ { body }]: [n] iterations are left, counting
    from [i]. *)
Fixpoint for_from (n : nat) (i : Z) (body : Z → Run (option Error)) : Run (option Error) :=
  match n with
  | O => ret None
  | S n' => check body i ;; for_from n' (i + 1) body
  end.

Definition for_upto (lo hi : Z) (body : Z → Run (option Error)) : Run (option Error) :=
  for_from (Z.to_nat (hi + 1 - lo)) lo body.

Section Calls.
Variable engine : Engine.

Definition record (ev : Event) (ctx : Context) : Context :=
  {| events := events ctx ++ [ev]; exports := exports ctx |}.

Definition os_ReadDir (path : string) : Run (Error + list DirEntry.t) :=
  λ ctx, let r := readDir engine (events ctx) path in
         (r, record (ReadDir path r) ctx).

Definition route53_LookupZone (args : LookupZoneArgs.t)
  : Run (Error + LookupZoneResult.t) :=
  λ ctx, let r := lookupZone engine (events ctx) args in
         (r, record (LookupZone args r) ctx).

Definition register (d : Declaration) : Run (Error + Resource) :=
  λ ctx, let r := registerResource engine (events ctx) d in
         (r, record (NewResource d r) ctx).

Definition s3_NewBucket name args := register (S3Bucket name args).
Definition s3_NewBucketPublicAccessBlock name args :=
  register (S3BucketPublicAccessBlock name args).
Definition s3_NewBucketObject name args := register (S3BucketObject name args).
Definition acm_NewCertificate name args := register (AcmCertificate name args).
Definition route53_NewRecord name args := register (Route53Record name args).
Definition cloudfront_NewOriginAccessIdentity name args :=
  register (CloudfrontOriginAccessIdentity name args).
Definition cloudfront_NewDistribution name args :=
  register (CloudfrontDistribution name args).
Definition s3_NewBucketPolicy name args := register (S3BucketPolicy name args).

(** [ctx.Export(name, value)] *)
Definition Export (name : string) (value : StringInput) : Run unit :=
  λ ctx, (tt, {| events := events ctx; exports := <[name := value]> (exports ctx) |}).
End Calls.

(** ** The stack definition *)

(** The [switch environment.name] of [main]. *)
Definition priceClass (environment : Environment.t) : string :=
  if String.eqb (Environment.name environment) "dev" then "PriceClass_100"
  else if String.eqb (Environment.name environment) "prod" then "PriceClass_All"
  else "PriceClass_100".

(** The [tags] and [wb] literals. *)
Definition tagsOf (project : Project.t) (environment : Environment.t) : Tags.t :=
  {| Tags.tags := {[ "project" := Project.name project;
                     "environment" := Environment.name environment ]} |}.

Definition webBucket (domain : Domain.t) : WebBucket.t :=
  {| WebBucket.name := "www." +:+ Domain.name domain;
     WebBucket.indexDocument := "index.html";
     WebBucket.errorDocument := "error.html" |}.

(** The argument literals of the declarations, one definition per literal of
    [main], over the local variables the literal mentions. *)

(** [&s3.BucketArgs{...}] *)
Definition bucketArgs (wb : WebBucket.t) (tags : Tags.t) : BucketArgs.t :=
  {| BucketArgs.Bucket := String (WebBucket.name wb);
     BucketArgs.Website :=
       {| BucketWebsiteArgs.IndexDocument := String (WebBucket.indexDocument wb);
          BucketWebsiteArgs.ErrorDocument := String (WebBucket.errorDocument wb) |};
     BucketArgs.Tags := ToStringMap (Tags.tags tags) |}.

(** [&s3.BucketPublicAccessBlockArgs{...}] *)
Definition bucketPublicAccessBlockArgs (bucket : Resource) : BucketPublicAccessBlockArgs.t :=
  {| BucketPublicAccessBlockArgs.Bucket := ID bucket;
     BucketPublicAccessBlockArgs.BlockPublicAcls := true;
     BucketPublicAccessBlockArgs.BlockPublicPolicy := true;
     BucketPublicAccessBlockArgs.IgnorePublicAcls := true;
     BucketPublicAccessBlockArgs.RestrictPublicBuckets := true |}.

(** [&s3.BucketObjectArgs{...}] *)
Definition bucketObjectArgs (site : Site.t) (tags : Tags.t) (bucket : Resource)
    (file : DirEntry.t) : BucketObjectArgs.t :=
  {| BucketObjectArgs.Key := String (DirEntry.Name file);
     BucketObjectArgs.Bucket := ID bucket;
     BucketObjectArgs.Source :=
       NewFileAsset (Site.dir site +:+ "/" +:+ DirEntry.Name file);
     BucketObjectArgs.ContentType := String "text/html";
     BucketObjectArgs.Tags := ToStringMap (Tags.tags tags) |}.

(** [&acm.CertificateArgs{...}] *)
Definition certificateArgs (domain : Domain.t) (tags : Tags.t) : CertificateArgs.t :=
  {| CertificateArgs.DomainName := String (Domain.name domain);
     CertificateArgs.ValidationMethod := String "DNS";
     CertificateArgs.SubjectAlternativeNames :=
       [ String ("www." +:+ Domain.name domain) ];
     CertificateArgs.Tags := ToStringMap (Tags.tags tags) |}.

(** [&route53.RecordArgs{...}] of the validation loop *)
Definition validationRecordArgs (domainZone : LookupZoneResult.t)
    (certificate : Resource) (i : Z) : RecordArgs.t :=
  {| RecordArgs.ZoneId := String (LookupZoneResult.Id domainZone);
     RecordArgs.Name := DomainValidationOptions_Index certificate i ResourceRecordName;
     RecordArgs.Type_ := String "CNAME";
     RecordArgs.Ttl := Some 60;
     RecordArgs.Records :=
       [ DomainValidationOptions_Index certificate i ResourceRecordValue ];
     RecordArgs.Aliases := [] |}.

(** [&cloudfront.OriginAccessIdentityArgs{...}] *)
Definition originAccessIdentityArgs (project : Project.t) : OriginAccessIdentityArgs.t :=
  {| OriginAccessIdentityArgs.Comment := String (Project.name project) |}.

(** [&cloudfront.DistributionArgs{...}] *)
Definition distributionArgs (domain : Domain.t) (tags : Tags.t) (priceClass : string)
    (bucket certificate originAccessId : Resource) : DistributionArgs.t :=
  {| DistributionArgs.Origins :=
       [ {| DistributionOriginArgs.DomainName := Out bucket BucketRegionalDomainName;
            DistributionOriginArgs.OriginId := ID bucket;
            DistributionOriginArgs.S3OriginConfig :=
              {| DistributionOriginS3OriginConfigArgs.OriginAccessIdentity :=
                   Out originAccessId CloudfrontAccessIdentityPath |} |} ];
     DistributionArgs.Enabled := true;
     DistributionArgs.HttpVersion := String "http2and3";
     DistributionArgs.IsIpv6Enabled := true;
     DistributionArgs.DefaultRootObject := String "index.html";
     DistributionArgs.Aliases :=
       [ String (Domain.name domain); String ("www." +:+ Domain.name domain) ];
     DistributionArgs.DefaultCacheBehavior :=
       {| DistributionDefaultCacheBehaviorArgs.AllowedMethods :=
            [ String "GET"; String "HEAD" ];
          DistributionDefaultCacheBehaviorArgs.CachedMethods :=
            [ String "GET"; String "HEAD" ];
          DistributionDefaultCacheBehaviorArgs.TargetOriginId := ID bucket;
          DistributionDefaultCacheBehaviorArgs.ForwardedValues :=
            {| DistributionDefaultCacheBehaviorForwardedValuesArgs.QueryString := false;
               DistributionDefaultCacheBehaviorForwardedValuesArgs.Cookies :=
                 {| DistributionDefaultCacheBehaviorForwardedValuesCookiesArgs.Forward :=
                      String "none" |} |};
          DistributionDefaultCacheBehaviorArgs.ViewerProtocolPolicy :=
            String "redirect-to-https";
          DistributionDefaultCacheBehaviorArgs.MinTtl := 0;
          DistributionDefaultCacheBehaviorArgs.DefaultTtl := 3600;
          DistributionDefaultCacheBehaviorArgs.MaxTtl := 86400 |};
     DistributionArgs.PriceClass := String priceClass;
     DistributionArgs.Restrictions :=
       {| DistributionRestrictionsArgs.GeoRestriction :=
            {| DistributionRestrictionsGeoRestrictionArgs.RestrictionType :=
                 String "none" |} |};
     DistributionArgs.ViewerCertificate :=
       {| DistributionViewerCertificateArgs.CloudfrontDefaultCertificate := false;
          DistributionViewerCertificateArgs.AcmCertificateArn := Out certificate Arn;
          DistributionViewerCertificateArgs.SslSupportMethod := String "sni-only";
          DistributionViewerCertificateArgs.MinimumProtocolVersion :=
            String "TLSv1.2_2021" |};
     DistributionArgs.Tags := ToStringMap (Tags.tags tags) |}.

(** [&route53.RecordArgs{...}] of the alias loop, first call: the bare
    domain. *)
Definition apexRecordArgs (domainZone : LookupZoneResult.t) (domain : Domain.t)
    (record : string) (cloudFrontDist : Resource) : RecordArgs.t :=
  {| RecordArgs.ZoneId := String (LookupZoneResult.Id domainZone);
     RecordArgs.Name := String (Domain.name domain);
     RecordArgs.Type_ := String record;
     RecordArgs.Ttl := None;
     RecordArgs.Records := [];
     RecordArgs.Aliases :=
       [ {| RecordAliasArgs.Name := Out cloudFrontDist DomainName;
            RecordAliasArgs.ZoneId := Out cloudFrontDist HostedZoneId;
            RecordAliasArgs.EvaluateTargetHealth := true |} ] |}.

(** [&route53.RecordArgs{...}] of the alias loop, second call: the [www]
    name. *)
Definition wwwRecordArgs (domainZone : LookupZoneResult.t) (domain : Domain.t)
    (record : string) (cloudFrontDist : Resource) : RecordArgs.t :=
  {| RecordArgs.ZoneId := String (LookupZoneResult.Id domainZone);
     RecordArgs.Name := String ("www." +:+ Domain.name domain);
     RecordArgs.Type_ := String record;
     RecordArgs.Ttl := None;
     RecordArgs.Records := [];
     RecordArgs.Aliases :=
       [ {| RecordAliasArgs.Name := Out cloudFrontDist DomainName;
            RecordAliasArgs.ZoneId := Out cloudFrontDist HostedZoneId;
            RecordAliasArgs.EvaluateTargetHealth := true |} ] |}.

(** [iam.GetPolicyDocumentOutputArgs{...}] *)
Definition policyDocumentArgs (bucket originAccessId : Resource)
    : GetPolicyDocumentOutputArgs.t :=
  {| GetPolicyDocumentOutputArgs.PolicyId := String "PolicyForCloudFrontPrivateContent";
     GetPolicyDocumentOutputArgs.Version := String "2008-10-17";
     GetPolicyDocumentOutputArgs.Statements :=
       [ {| GetPolicyDocumentStatementArgs.Sid := String "1";
            GetPolicyDocumentStatementArgs.Principals :=
              [ {| GetPolicyDocumentStatementPrincipalArgs.Type_ := String "AWS";
                   GetPolicyDocumentStatementPrincipalArgs.Identifiers :=
                     [ Out originAccessId IamArn ] |} ];
            GetPolicyDocumentStatementArgs.Actions := [ String "s3:GetObject" ];
            GetPolicyDocumentStatementArgs.Resources :=
              [ Sprintf_v (Out bucket Arn) "/*" ] |} ] |}.

(** [&s3.BucketPolicyArgs{...}] *)
Definition bucketPolicyArgs (bucket : Resource)
    (bucketPolicy : GetPolicyDocumentResultOutput) : BucketPolicyArgs.t :=
  {| BucketPolicyArgs.Bucket := ID bucket;
     BucketPolicyArgs.Policy := Json bucketPolicy |}.

(** The constants of [main]. *)
Definition stratusLabs : Project.t := {| Project.name := "stratusLabs" |}.
Definition dev : Environment.t := {| Environment.name := "dev" |}.
Definition wwwSite : Site.t := {| Site.dir := "./www/_site" |}.
Definition stratuslabsNet : Domain.t := {| Domain.name := "stratuslabs.net" |}.

Section Stack.
Variable engine : Engine.

(** The function [main] hands to [pulumi.Run], with the four structs it
    starts from as parameters. *)
Definition stack (project : Project.t) (environment : Environment.t)
    (site : Site.t) (domain : Domain.t) : Run (option Error) :=
  let tags := tagsOf project environment in
  let priceClass := priceClass environment in
  let wb := webBucket domain in
  files <-? os_ReadDir engine (Site.dir site +:+ "/") ;;
  domainZone <-? route53_LookupZone engine
    {| LookupZoneArgs.Name := Some (Domain.name domain) |} ;;
  bucket <-? s3_NewBucket engine (Project.name project +:+ "Bucket")
    (bucketArgs wb tags) ;;
  _ <-? s3_NewBucketPublicAccessBlock engine
    (Project.name project +:+ "BucketNoPublic")
    (bucketPublicAccessBlockArgs bucket) ;;
  check range files (λ file,
    _ <-? s3_NewBucketObject engine (DirEntry.Name file)
      (bucketObjectArgs site tags bucket file) ;;
    ret None) ;;
  certificate <-? acm_NewCertificate engine (Project.name project +:+ "Cert")
    (certificateArgs domain tags) ;;
  check for_upto 0 1 (λ i,
    _ <-? route53_NewRecord engine (Project.name project +:+ "Cname" +:+ pretty i)
      (validationRecordArgs domainZone certificate i) ;;
    ret None) ;;
  originAccessId <-? cloudfront_NewOriginAccessIdentity engine
    (Project.name project +:+ "OriginAccessId")
    (originAccessIdentityArgs project) ;;
  cloudFrontDist <-? cloudfront_NewDistribution engine
    (Project.name project +:+ "Distribution")
    (distributionArgs domain tags priceClass bucket certificate originAccessId) ;;
  check range ["A"; "AAAA"] (λ record,
    _ <-? route53_NewRecord engine (Project.name project +:+ record)
      (apexRecordArgs domainZone domain record cloudFrontDist) ;;
    _ <-? route53_NewRecord engine ("www" +:+ Project.name project +:+ record)
      (wwwRecordArgs domainZone domain record cloudFrontDist) ;;
    ret None) ;;
  let bucketPolicy :=
    GetPolicyDocumentOutput (policyDocumentArgs bucket originAccessId) in
  _ <-? s3_NewBucketPolicy engine (Domain.name domain +:+ "BucketPolicy")
    (bucketPolicyArgs bucket bucketPolicy) ;;
  Export "bucketName" (ID bucket) ;;
  Export "cloudFrontDist" (ID cloudFrontDist) ;;
  ret None.

(** [pulumi.Run]: the function runs once, on a fresh context. *)
Definition pulumi_Run (f : Run (option Error)) : option Error * Context :=
  f {| events := []; exports := ∅ |}.

(** [main]: the run on the constants of the source. *)
Definition main : option Error * Context :=
  pulumi_Run (stack stratusLabs dev wwwSite stratuslabsNet).
End Stack.

(** ** Resolving symbolic values *)

(** [acm.CertificateDomainValidationOption]; the [*string] fields are
    options. *)
Module CertificateDomainValidationOption.
Record t := mk {
  DomainName : string;
  ResourceRecordName : option string;
  ResourceRecordValue : option string }.
End CertificateDomainValidationOption.

(** What the engine knows of a resource once it is provisioned. *)
Record Provisioned := {
  id : string;
  property : Property → string;
  domainValidationOptions : list CertificateDomainValidationOption.t }.

(** Modelled from the spec: the SDK's [Index] accessor of an array output is
    not part of this repository.  It is taken as positional access into the
    resolved list of validation options, which has no answer when the
    position is not in the list ("the indexed access is out of range"). *)
Definition Index (opts : list CertificateDomainValidationOption.t) (i : Z)
    : option CertificateDomainValidationOption.t :=
  if decide (0 ≤ i) then opts !! Z.to_nat i else None.

(** [Elem()] of a [*string] output: the string, or the empty string for
    [nil]. *)
Definition Elem (p : option string) : string := default "" p.

Definition validationField (f : ValidationField)
    (o : CertificateDomainValidationOption.t) : option string :=
  match f with
  | ResourceRecordName => CertificateDomainValidationOption.ResourceRecordName o
  | ResourceRecordValue => CertificateDomainValidationOption.ResourceRecordValue o
  end.

(** The string a symbolic value stands for, given the provisioned resources;
    [None] when an indexed access is out of range. *)
Fixpoint resolve (σ : Resource → Provisioned) (x : StringInput) : option string :=
  match x with
  | String s => Some s
  | ID r => Some (id (σ r))
  | Out r p => Some (property (σ r) p)
  | DomainValidationOptions_Index r i f =>
      o ← Index (domainValidationOptions (σ r)) i;
      Some (Elem (validationField f o))
  | Sprintf_v x suffix =>
      s ← resolve σ x;
      Some (s +:+ suffix)
  end.

(** ** Reading a run *)

(** The error a step reported, if it did. *)
Definition error_of (ev : Event) : option Error :=
  match ev with
  | ReadDir _ (inl e) | LookupZone _ (inl e) | NewResource _ (inl e) => Some e
  | _ => None
  end.

(** The declaration a step submitted, if it was one. *)
Definition declaration_of (ev : Event) : option Declaration :=
  match ev with
  | NewResource d _ => Some d
  | _ => None
  end.

(** The declarations submitted in a run, in order. *)
Definition declarations (ctx : Context) : list Declaration :=
  omap declaration_of (events ctx).

(** No step of [l] reported an error. *)
Definition clean (l : list Event) : Prop :=
  Forall (λ ev, error_of ev = None) l.

(** A log and a result that agree on the first error: without one every
    step succeeded; with one the failed step is the last of the log and the
    result is its error. *)
Definition first_error_wins (l : list Event) (r : option Error) : Prop :=
  match r with
  | None => clean l
  | Some e => ∃ h ev, l = h ++ [ev] ∧ clean h ∧ error_of ev = Some e
  end.

(** ** What a run of [stack] declares *)

Section Plan.
Variables (project : Project.t) (environment : Environment.t)
          (site : Site.t) (domain : Domain.t).

Definition readDirPath : string := Site.dir site +:+ "/".

Definition lookupZoneArgs : LookupZoneArgs.t :=
  {| LookupZoneArgs.Name := Some (Domain.name domain) |}.

Definition bucketDecl : Declaration :=
  S3Bucket (Project.name project +:+ "Bucket")
    (bucketArgs (webBucket domain) (tagsOf project environment)).

Definition publicAccessBlockDecl (bucket : Resource) : Declaration :=
  S3BucketPublicAccessBlock (Project.name project +:+ "BucketNoPublic")
    (bucketPublicAccessBlockArgs bucket).

Definition objectDecl (bucket : Resource) (file : DirEntry.t) : Declaration :=
  S3BucketObject (DirEntry.Name file)
    (bucketObjectArgs site (tagsOf project environment) bucket file).

Definition certificateDecl : Declaration :=
  AcmCertificate (Project.name project +:+ "Cert")
    (certificateArgs domain (tagsOf project environment)).

Definition validationRecordDecl (zone : LookupZoneResult.t) (certificate : Resource)
    (i : Z) : Declaration :=
  Route53Record (Project.name project +:+ "Cname" +:+ pretty i)
    (validationRecordArgs zone certificate i).

Definition originAccessIdentityDecl : Declaration :=
  CloudfrontOriginAccessIdentity (Project.name project +:+ "OriginAccessId")
    (originAccessIdentityArgs project).

Definition distributionDecl (bucket certificate originAccessId : Resource)
    : Declaration :=
  CloudfrontDistribution (Project.name project +:+ "Distribution")
    (distributionArgs domain (tagsOf project environment) (priceClass environment)
       bucket certificate originAccessId).

Definition apexRecordDecl (zone : LookupZoneResult.t) (record : string)
    (cloudFrontDist : Resource) : Declaration :=
  Route53Record (Project.name project +:+ record)
    (apexRecordArgs zone domain record cloudFrontDist).

Definition wwwRecordDecl (zone : LookupZoneResult.t) (record : string)
    (cloudFrontDist : Resource) : Declaration :=
  Route53Record ("www" +:+ Project.name project +:+ record)
    (wwwRecordArgs zone domain record cloudFrontDist).

Definition bucketPolicyDecl (bucket originAccessId : Resource) : Declaration :=
  S3BucketPolicy (Domain.name domain +:+ "BucketPolicy")
    (bucketPolicyArgs bucket
       (GetPolicyDocumentOutput (policyDocumentArgs bucket originAccessId))).

(** A declaration is the one [stack] makes of its kind, built from
    resources that the log [l] shows as created. *)
Definition expected (l : list Event) (d : Declaration) : Prop :=
  match d with
  | S3Bucket _ _ => d = bucketDecl
  | S3BucketPublicAccessBlock _ _ =>
      ∃ bucket, NewResource bucketDecl (inr bucket) ∈ l ∧
        d = publicAccessBlockDecl bucket
  | S3BucketObject _ _ =>
      ∃ files bucket file,
        ReadDir readDirPath (inr files) ∈ l ∧ file ∈ files ∧
        NewResource bucketDecl (inr bucket) ∈ l ∧
        d = objectDecl bucket file
  | AcmCertificate _ _ => d = certificateDecl
  | Route53Record _ _ =>
      ∃ zone, LookupZone lookupZoneArgs (inr zone) ∈ l ∧
        ((∃ certificate i,
            NewResource certificateDecl (inr certificate) ∈ l ∧
            (i = 0 ∨ i = 1) ∧
            d = validationRecordDecl zone certificate i) ∨
         (∃ bucket certificate originAccessId cloudFrontDist record,
            NewResource (distributionDecl bucket certificate originAccessId)
              (inr cloudFrontDist) ∈ l ∧
            (record = "A" ∨ record = "AAAA") ∧
            (d = apexRecordDecl zone record cloudFrontDist ∨
             d = wwwRecordDecl zone record cloudFrontDist)))
  | CloudfrontOriginAccessIdentity _ _ => d = originAccessIdentityDecl
  | CloudfrontDistribution _ _ =>
      ∃ bucket certificate originAccessId,
        NewResource bucketDecl (inr bucket) ∈ l ∧
        NewResource certificateDecl (inr certificate) ∈ l ∧
        NewResource originAccessIdentityDecl (inr originAccessId) ∈ l ∧
        d = distributionDecl bucket certificate originAccessId
  | S3BucketPolicy _ _ =>
      ∃ bucket originAccessId,
        NewResource bucketDecl (inr bucket) ∈ l ∧
        NewResource originAccessIdentityDecl (inr originAccessId) ∈ l ∧
        d = bucketPolicyDecl bucket originAccessId
  end.

(** Every declaration of the log is an expected one. *)
Definition all_expected (l : list Event) : Prop :=
  ∀ d r, NewResource d r ∈ l → expected l d.

(** The answers of a run in which every step succeeded. *)
Record Answers := {
  files : list DirEntry.t;
  domainZone : LookupZoneResult.t;
  bucket : Resource;
  publicAccessBlock : Resource;
  objects : list Resource;
  certificate : Resource;
  cname0 : Resource;
  cname1 : Resource;
  originAccessId : Resource;
  cloudFrontDist : Resource;
  recordA : Resource;
  wwwRecordA : Resource;
  recordAAAA : Resource;
  wwwRecordAAAA : Resource;
  bucketPolicy : Resource }.

Definition objectEvents (bucket : Resource) (files : list DirEntry.t)
    (objects : list Resource) : list Event :=
  zip_with (λ file r, NewResource (objectDecl bucket file) (inr r)) files objects.

(** The log of a run in which every step succeeded, from its answers. *)
Definition completeLog (a : Answers) : list Event :=
  [ ReadDir readDirPath (inr (files a));
    LookupZone lookupZoneArgs (inr (domainZone a));
    NewResource bucketDecl (inr (bucket a));
    NewResource (publicAccessBlockDecl (bucket a)) (inr (publicAccessBlock a)) ]
  ++ objectEvents (bucket a) (files a) (objects a)
  ++ [ NewResource certificateDecl (inr (certificate a));
       NewResource (validationRecordDecl (domainZone a) (certificate a) 0) (inr (cname0 a));
       NewResource (validationRecordDecl (domainZone a) (certificate a) 1) (inr (cname1 a));
       NewResource originAccessIdentityDecl (inr (originAccessId a));
       NewResource (distributionDecl (bucket a) (certificate a) (originAccessId a))
         (inr (cloudFrontDist a));
       NewResource (apexRecordDecl (domainZone a) "A" (cloudFrontDist a)) (inr (recordA a));
       NewResource (wwwRecordDecl (domainZone a) "A" (cloudFrontDist a)) (inr (wwwRecordA a));
       NewResource (apexRecordDecl (domainZone a) "AAAA" (cloudFrontDist a))
         (inr (recordAAAA a));
       NewResource (wwwRecordDecl (domainZone a) "AAAA" (cloudFrontDist a))
         (inr (wwwRecordAAAA a));
       NewResource (bucketPolicyDecl (bucket a) (originAccessId a)) (inr (bucketPolicy a)) ].

(** A complete run: the log and the exports, from the answers. *)
Definition complete (ctx : Context) (a : Answers) : Prop :=
  length (objects a) = length (files a) ∧
  events ctx = completeLog a ∧
  exports ctx = {[ "bucketName" := ID (bucket a);
                   "cloudFrontDist" := ID (cloudFrontDist a) ]}.

(** So far every declaration was expected and every step succeeded. *)
Definition sound (l : list Event) : Prop := all_expected l ∧ clean l.

(** What holds at the end of every run: the declarations are the expected
    ones, the result is the first error, and a run without error is
    complete. *)
Definition post (r : option Error) (ctx : Context) : Prop :=
  all_expected (events ctx) ∧
  first_error_wins (events ctx) r ∧
  (r = None → ∃ a, complete ctx a).
End Plan.

(** ** Runs *)

(** A run of the stack definition against an engine; [main engine] is the run
    with the constants of the source. *)
Definition run (engine : Engine) (project : Project.t) (environment : Environment.t)
    (site : Site.t) (domain : Domain.t) : option Error * Context :=
  pulumi_Run (stack engine project environment site domain).

(** Selecting declarations by what they are: an uploaded object, a record of
    type [CNAME], a record with alias targets. *)
Definition is_object (d : Declaration) : bool :=
  match d with
  | S3BucketObject _ _ => true
  | _ => false
  end.

Definition is_cname (d : Declaration) : bool :=
  match d with
  | Route53Record _ args =>
      match RecordArgs.Type_ args with
      | String t => String.eqb t "CNAME"
      | _ => false
      end
  | _ => false
  end.

Definition is_alias (d : Declaration) : bool :=
  match d with
  | Route53Record _ args =>
      match RecordArgs.Aliases args with
      | [] => false
      | _ :: _ => true
      end
  | _ => false
  end.

(** The declarations of a run in which every step succeeded, from its
    answers. *)
Definition completeDeclarations (project : Project.t) (environment : Environment.t)
    (site : Site.t) (domain : Domain.t)
    (a : Answers) : list Declaration :=
  [ bucketDecl project environment domain;
    publicAccessBlockDecl project (bucket a) ]
  ++ map (objectDecl project environment site (bucket a)) (files a)
  ++ [ certificateDecl project environment domain;
       validationRecordDecl project (domainZone a) (certificate a) 0;
       validationRecordDecl project (domainZone a) (certificate a) 1;
       originAccessIdentityDecl project;
       distributionDecl project environment domain
         (bucket a) (certificate a) (originAccessId a);
       apexRecordDecl project domain (domainZone a) "A" (cloudFrontDist a);
       wwwRecordDecl project domain (domainZone a) "A" (cloudFrontDist a);
       apexRecordDecl project domain (domainZone a) "AAAA" (cloudFrontDist a);
       wwwRecordDecl project domain (domainZone a) "AAAA" (cloudFrontDist a);
       bucketPolicyDecl domain (bucket a) (originAccessId a) ].

(** ** Example engines *)

(** An engine on which every step succeeds: the site directory holds
    [index.html] and [error.html], the zone is found, and each declaration is
    answered with a fresh resource. *)
Definition okEngine : Engine :=
  {| readDir := λ _ _,
       inr [ {| DirEntry.Name := "index.html"; DirEntry.IsDir := false |};
             {| DirEntry.Name := "error.html"; DirEntry.IsDir := false |} ];
     lookupZone := λ _ _, inr {| LookupZoneResult.Id := "Z0123456789" |};
     registerResource := λ log _, inr (Res (N.of_nat (length log))) |}.

(** The same engine, except that the certificate request is refused. *)
Definition noCertificateEngine : Engine :=
  {| readDir := readDir okEngine;
     lookupZone := lookupZone okEngine;
     registerResource := λ log d,
       match d with
       | AcmCertificate _ _ => inl (Err "LimitExceededException")
       | _ => registerResource okEngine log d
       end |}.

(** The runs of [main] on the two engines. *)
Abbreviation okRun := (run okEngine stratusLabs dev wwwSite stratuslabsNet).

Abbreviation noCertificateRun :=
  (run noCertificateEngine stratusLabs dev wwwSite stratuslabsNet).

(** A certificate resolved with one validation option per subject name, and
    one resolved with a single option. *)
Definition twoOptions (r : Resource) : Provisioned :=
  {| id := "id"; property := λ _, "value";
     domainValidationOptions :=
       [ {| CertificateDomainValidationOption.DomainName := "stratuslabs.net";
            CertificateDomainValidationOption.ResourceRecordName :=
              Some "_a.stratuslabs.net.";
            CertificateDomainValidationOption.ResourceRecordValue :=
              Some "_x.acm-validations.aws." |};
         {| CertificateDomainValidationOption.DomainName := "www.stratuslabs.net";
            CertificateDomainValidationOption.ResourceRecordName :=
              Some "_b.www.stratuslabs.net.";
            CertificateDomainValidationOption.ResourceRecordValue :=
              Some "_y.acm-validations.aws." |} ] |}.

Definition oneOption (r : Resource) : Provisioned :=
  {| id := "id"; property := λ _, "value";
     domainValidationOptions :=
       [ {| CertificateDomainValidationOption.DomainName := "stratuslabs.net";
            CertificateDomainValidationOption.ResourceRecordName :=
              Some "_a.stratuslabs.net.";
            CertificateDomainValidationOption.ResourceRecordValue :=
              Some "_x.acm-validations.aws." |} ] |}.

(** The distribution arguments of [main] on [okEngine], where the bucket, the
    certificate and the origin access identity are the resources 2, 6 and
    9. *)
Definition okDistributionArgs : DistributionArgs.t :=
  distributionArgs stratuslabsNet (tagsOf stratusLabs dev) (priceClass dev)
    (Res 2) (Res 6) (Res 9).

(** ** Every run, step by step *)

(** The step [ev], answered with the error [e]. *)
Definition failed (ev : Event) (e : Error) : Event :=
  match ev with
  | ReadDir path _ => ReadDir path (inl e)
  | LookupZone args _ => LookupZone args (inl e)
  | NewResource d _ => NewResource d (inl e)
  end.

Section Progress.
Variables (project : Project.t) (environment : Environment.t)
          (site : Site.t) (domain : Domain.t).

(** The log is the beginning of the log of a complete run. *)
Definition begun (l : list Event) : Prop :=
  ∃ a, length (objects a) = length (files a) ∧
       l `prefix_of` completeLog project environment site domain a.

(** Each declaration of the log was an expected one when it was made: it is
    built from resources that the steps before it created. *)
Definition ordered (l : list Event) : Prop :=
  ∀ i d r, l !! i = Some (NewResource d r) →
           expected project environment site domain (take i l) d.

(** How a run ends: without error it is complete; with an error it exported
    nothing and its log is the beginning of a complete log, up to the answer
    of its last step, which is the error. *)
Definition outcome (r : option Error) (ctx : Context) : Prop :=
  ordered (events ctx) ∧
  match r with
  | None => ∃ a, complete project environment site domain ctx a
  | Some e =>
      exports ctx = ∅ ∧
      ∃ h ev, events ctx = h ++ [failed ev e] ∧ begun (h ++ [ev])
  end.
End Progress.

(** The answers of a complete run, listed; [o] stands for those not yet
    known. *)
Definition answers (files : list DirEntry.t) (domainZone : LookupZoneResult.t)
    (bucket publicAccessBlock : Resource) (objects : list Resource)
    (certificate cname0 cname1 originAccessId cloudFrontDist
     recordA wwwRecordA recordAAAA wwwRecordAAAA bucketPolicy : Resource)
    : Answers :=
  {| files := files; domainZone := domainZone; bucket := bucket;
     publicAccessBlock := publicAccessBlock; objects := objects;
     certificate := certificate; cname0 := cname0; cname1 := cname1;
     originAccessId := originAccessId; cloudFrontDist := cloudFrontDist;
     recordA := recordA; wwwRecordA := wwwRecordA; recordAAAA := recordAAAA;
     wwwRecordAAAA := wwwRecordAAAA; bucketPolicy := bucketPolicy |}.

(** ** Reading declarations *)

(** The kinds of resources [main] declares. *)
Inductive Kind :=
| KBucket
| KBucketPublicAccessBlock
| KBucketObject
| KCertificate
| KRecord
| KOriginAccessIdentity
| KDistribution
| KBucketPolicy.

Global Instance Kind_eq_dec : EqDecision Kind.
Proof. solve_decision. Defined.

Definition kind_of (d : Declaration) : Kind :=
  match d with
  | S3Bucket _ _ => KBucket
  | S3BucketPublicAccessBlock _ _ => KBucketPublicAccessBlock
  | S3BucketObject _ _ => KBucketObject
  | AcmCertificate _ _ => KCertificate
  | Route53Record _ _ => KRecord
  | CloudfrontOriginAccessIdentity _ _ => KOriginAccessIdentity
  | CloudfrontDistribution _ _ => KDistribution
  | S3BucketPolicy _ _ => KBucketPolicy
  end.

Definition is_kind (k : Kind) (d : Declaration) : bool :=
  bool_decide (kind_of d = k).

(** The logical name a declaration registers its resource under: the second
    argument of the [New...] call. *)
Definition logicalName (d : Declaration) : string :=
  match d with
  | S3Bucket name _ | S3BucketPublicAccessBlock name _ | S3BucketObject name _
  | AcmCertificate name _ | Route53Record name _
  | CloudfrontOriginAccessIdentity name _ | CloudfrontDistribution name _
  | S3BucketPolicy name _ => name
  end.

(** The tags of a declaration, for the four kinds [main] tags. *)
Definition tags_of (d : Declaration) : option (gmap string StringInput) :=
  match d with
  | S3Bucket _ args => Some (BucketArgs.Tags args)
  | S3BucketObject _ args => Some (BucketObjectArgs.Tags args)
  | AcmCertificate _ args => Some (CertificateArgs.Tags args)
  | CloudfrontDistribution _ args => Some (DistributionArgs.Tags args)
  | _ => None
  end.

(** The resources whose outputs a value reads. *)
Fixpoint inputResources (x : StringInput) : list Resource :=
  match x with
  | String _ => []
  | ID r => [r]
  | Out r _ => [r]
  | DomainValidationOptions_Index r _ _ => [r]
  | Sprintf_v x _ => inputResources x
  end.

Definition inputsResources (xs : list StringInput) : list Resource :=
  mjoin (map inputResources xs).

Definition tagsResources (tags : gmap string StringInput) : list Resource :=
  inputsResources (map snd (map_to_list tags)).

(** The resources whose outputs the arguments of a declaration read, field
    by field. *)
Definition aliasResources (a : RecordAliasArgs.t) : list Resource :=
  inputResources (RecordAliasArgs.Name a) ++ inputResources (RecordAliasArgs.ZoneId a).

Definition originResources (o : DistributionOriginArgs.t) : list Resource :=
  inputResources (DistributionOriginArgs.DomainName o)
  ++ inputResources (DistributionOriginArgs.OriginId o)
  ++ inputResources (DistributionOriginS3OriginConfigArgs.OriginAccessIdentity
                       (DistributionOriginArgs.S3OriginConfig o)).

Definition behaviorResources (b : DistributionDefaultCacheBehaviorArgs.t)
    : list Resource :=
  inputsResources (DistributionDefaultCacheBehaviorArgs.AllowedMethods b)
  ++ inputsResources (DistributionDefaultCacheBehaviorArgs.CachedMethods b)
  ++ inputResources (DistributionDefaultCacheBehaviorArgs.TargetOriginId b)
  ++ inputResources
       (DistributionDefaultCacheBehaviorForwardedValuesCookiesArgs.Forward
          (DistributionDefaultCacheBehaviorForwardedValuesArgs.Cookies
             (DistributionDefaultCacheBehaviorArgs.ForwardedValues b)))
  ++ inputResources (DistributionDefaultCacheBehaviorArgs.ViewerProtocolPolicy b).

Definition viewerCertificateResources (v : DistributionViewerCertificateArgs.t)
    : list Resource :=
  inputResources (DistributionViewerCertificateArgs.AcmCertificateArn v)
  ++ inputResources (DistributionViewerCertificateArgs.SslSupportMethod v)
  ++ inputResources (DistributionViewerCertificateArgs.MinimumProtocolVersion v).

Definition principalResources (p : GetPolicyDocumentStatementPrincipalArgs.t)
    : list Resource :=
  inputResources (GetPolicyDocumentStatementPrincipalArgs.Type_ p)
  ++ inputsResources (GetPolicyDocumentStatementPrincipalArgs.Identifiers p).

Definition statementResources (s : GetPolicyDocumentStatementArgs.t)
    : list Resource :=
  inputResources (GetPolicyDocumentStatementArgs.Sid s)
  ++ mjoin (map principalResources (GetPolicyDocumentStatementArgs.Principals s))
  ++ inputsResources (GetPolicyDocumentStatementArgs.Actions s)
  ++ inputsResources (GetPolicyDocumentStatementArgs.Resources s).

Definition policyResources (p : PolicyInput) : list Resource :=
  match p with
  | Json (GetPolicyDocumentOutput doc) =>
      inputResources (GetPolicyDocumentOutputArgs.PolicyId doc)
      ++ inputResources (GetPolicyDocumentOutputArgs.Version doc)
      ++ mjoin (map statementResources (GetPolicyDocumentOutputArgs.Statements doc))
  end.

Definition resourcesOf (d : Declaration) : list Resource :=
  match d with
  | S3Bucket _ a =>
      inputResources (BucketArgs.Bucket a)
      ++ inputResources (BucketWebsiteArgs.IndexDocument (BucketArgs.Website a))
      ++ inputResources (BucketWebsiteArgs.ErrorDocument (BucketArgs.Website a))
      ++ tagsResources (BucketArgs.Tags a)
  | S3BucketPublicAccessBlock _ a =>
      inputResources (BucketPublicAccessBlockArgs.Bucket a)
  | S3BucketObject _ a =>
      inputResources (BucketObjectArgs.Key a)
      ++ inputResources (BucketObjectArgs.Bucket a)
      ++ inputResources (BucketObjectArgs.ContentType a)
      ++ tagsResources (BucketObjectArgs.Tags a)
  | AcmCertificate _ a =>
      inputResources (CertificateArgs.DomainName a)
      ++ inputResources (CertificateArgs.ValidationMethod a)
      ++ inputsResources (CertificateArgs.SubjectAlternativeNames a)
      ++ tagsResources (CertificateArgs.Tags a)
  | Route53Record _ a =>
      inputResources (RecordArgs.ZoneId a)
      ++ inputResources (RecordArgs.Name a)
      ++ inputResources (RecordArgs.Type_ a)
      ++ inputsResources (RecordArgs.Records a)
      ++ mjoin (map aliasResources (RecordArgs.Aliases a))
  | CloudfrontOriginAccessIdentity _ a =>
      inputResources (OriginAccessIdentityArgs.Comment a)
  | CloudfrontDistribution _ a =>
      mjoin (map originResources (DistributionArgs.Origins a))
      ++ inputResources (DistributionArgs.HttpVersion a)
      ++ inputResources (DistributionArgs.DefaultRootObject a)
      ++ inputsResources (DistributionArgs.Aliases a)
      ++ behaviorResources (DistributionArgs.DefaultCacheBehavior a)
      ++ inputResources (DistributionArgs.PriceClass a)
      ++ inputResources
           (DistributionRestrictionsGeoRestrictionArgs.RestrictionType
              (DistributionRestrictionsArgs.GeoRestriction
                 (DistributionArgs.Restrictions a)))
      ++ viewerCertificateResources (DistributionArgs.ViewerCertificate a)
      ++ tagsResources (DistributionArgs.Tags a)
  | S3BucketPolicy _ a =>
      inputResources (BucketPolicyArgs.Bucket a)
      ++ policyResources (BucketPolicyArgs.Policy a)
  end.

(** An engine that refuses every upload. *)
Definition noUploadEngine : Engine :=
  {| readDir := readDir okEngine;
     lookupZone := lookupZone okEngine;
     registerResource := λ log d,
       match d with
       | S3BucketObject _ _ => inl (Err "AccessDenied")
       | _ => registerResource okEngine log d
       end |}.

Abbreviation noUploadRun := (run noUploadEngine stratusLabs dev wwwSite stratuslabsNet).

(** A file system without the site directory. *)
Definition noSiteEngine : Engine :=
  {| readDir := λ _ _, inl (Err "no such file or directory");
     lookupZone := lookupZone okEngine;
     registerResource := registerResource okEngine |}.

Abbreviation noSiteRun := (run noSiteEngine stratusLabs dev wwwSite stratuslabsNet).

(** ** Reasoning about runs: weakest preconditions *)

(** [wp m Q ctx]: running [m] from [ctx] ends in a result and a context that
    satisfy [Q]. *)
Definition wp {A} (m : Run A) (Q : A → Context → Prop) (ctx : Context) : Prop :=
  Q (m ctx).1 (m ctx).2.

Lemma wp_ret {A} (a : A) Q ctx : Q a ctx → wp (ret a) Q ctx.
Proof. done. Qed.

Lemma wp_bind {A B} (m : Run A) (k : A → Run B) Q ctx :
  wp m (λ a ctx', wp (k a) Q ctx') ctx → wp (bind m k) Q ctx.
Proof. unfold wp, bind. by destruct (m ctx). Qed.

Lemma wp_try {A} (m : Run (Error + A)) (k : A → Run (option Error)) Q ctx :
  wp m (λ r ctx', match r with
                  | inl e => Q (Some e) ctx'
                  | inr x => wp (k x) Q ctx'
                  end) ctx →
  wp (x <-? m ;; k x) Q ctx.
Proof.
  intros H. apply wp_bind. unfold wp in *.
  by destruct (m ctx) as [[e|x] ctx'].
Qed.

Lemma wp_check (m k : Run (option Error)) Q ctx :
  wp m (λ r ctx', match r with
                  | Some e => Q (Some e) ctx'
                  | None => wp k Q ctx'
                  end) ctx →
  wp (check m ;; k) Q ctx.
Proof.
  intros H. apply wp_bind. unfold wp in *.
  by destruct (m ctx) as [[e|] ctx'].
Qed.

Lemma wp_range {A} (I : list A → Context → Prop) (xs : list A)
    (body : A → Run (option Error)) Q ctx :
  I [] ctx →
  (∀ done x rest ctx',
     xs = done ++ x :: rest → I done ctx' →
     wp (body x) (λ r ctx'', match r with
                             | Some e => Q (Some e) ctx''
                             | None => I (done ++ [x]) ctx''
                             end) ctx') →
  (∀ ctx', I xs ctx' → Q None ctx') →
  wp (range xs body) Q ctx.
Proof.
  revert I ctx. induction xs as [|x xs IH]; intros I ctx H0 Hbody Hend.
  - by apply wp_ret, Hend.
  - simpl. apply wp_check.
    pose proof (Hbody [] x xs ctx eq_refl H0) as Hx.
    unfold wp in Hx |- *. destruct (body x ctx) as [[e|] ctx']; simpl in *; [done|].
    apply (IH (λ done, I (x :: done))); [done| |done].
    intros done y rest ctx'' -> HI.
    by apply (Hbody (x :: done) y rest).
Qed.

Lemma wp_check_ret (k : Run (option Error)) Q ctx :
  wp k Q ctx → wp (check ret None ;; k) Q ctx.
Proof. done. Qed.

Lemma wp_check_assoc (m1 m2 k : Run (option Error)) Q ctx :
  wp (check m1 ;; check m2 ;; k) Q ctx →
  wp (check (check m1 ;; m2) ;; k) Q ctx.
Proof. unfold wp, bind. by destruct (m1 ctx) as [[e|] ctx']. Qed.

Lemma wp_check_try {A} (m : Run (Error + A)) (k1 : A → Run (option Error))
    (k : Run (option Error)) Q ctx :
  wp (x <-? m ;; check k1 x ;; k) Q ctx →
  wp (check (x <-? m ;; k1 x) ;; k) Q ctx.
Proof. unfold wp, bind. by destruct (m ctx) as [[e|x] ctx']. Qed.

Section Calls_wp.
Variable engine : Engine.

Lemma wp_try_ReadDir path (k : list DirEntry.t → Run (option Error)) Q ctx :
  (∀ e, Q (Some e) (record (ReadDir path (inl e)) ctx)) →
  (∀ files, wp (k files) Q (record (ReadDir path (inr files)) ctx)) →
  wp (x <-? os_ReadDir engine path ;; k x) Q ctx.
Proof.
  intros He Hk. apply wp_try. unfold wp, os_ReadDir. simpl.
  destruct (readDir engine (events ctx) path); [apply He | apply Hk].
Qed.

Lemma wp_try_LookupZone args (k : LookupZoneResult.t → Run (option Error)) Q ctx :
  (∀ e, Q (Some e) (record (LookupZone args (inl e)) ctx)) →
  (∀ zone, wp (k zone) Q (record (LookupZone args (inr zone)) ctx)) →
  wp (x <-? route53_LookupZone engine args ;; k x) Q ctx.
Proof.
  intros He Hk. apply wp_try. unfold wp, route53_LookupZone. simpl.
  destruct (lookupZone engine (events ctx) args); [apply He | apply Hk].
Qed.

Lemma wp_try_register d (k : Resource → Run (option Error)) Q ctx :
  (∀ e, Q (Some e) (record (NewResource d (inl e)) ctx)) →
  (∀ r, wp (k r) Q (record (NewResource d (inr r)) ctx)) →
  wp (x <-? register engine d ;; k x) Q ctx.
Proof.
  intros He Hk. apply wp_try. unfold wp, register. simpl.
  destruct (registerResource engine (events ctx) d); [apply He | apply Hk].
Qed.

Lemma wp_Export name value (k : Run (option Error)) Q ctx :
  wp k Q {| events := events ctx; exports := <[name := value]> (exports ctx) |} →
  wp (Export name value ;; k) Q ctx.
Proof. intros H. by apply wp_bind. Qed.
End Calls_wp.

Lemma for_upto_0_1 (body : Z → Run (option Error)) :
  for_upto 0 1 body = (check body 0 ;; check body 1 ;; ret None).
Proof. reflexivity. Qed.

Lemma range_2 {A} (x y : A) (body : A → Run (option Error)) :
  range [x; y] body = (check body x ;; check body y ;; ret None).
Proof. reflexivity. Qed.

(** ** The shape of every run of [stack] *)

Lemma clean_snoc l ev : clean l → error_of ev = None → clean (l ++ [ev]).
Proof. intros Hl Hev. apply Forall_app. split; [done|]. by constructor. Qed.

Lemma first_error_last l ev e :
  clean l → error_of ev = Some e → first_error_wins (l ++ [ev]) (Some e).
Proof. intros Hl Hev. by exists l, ev. Qed.

Lemma exports_two (b d : StringInput) :
  <["cloudFrontDist" := d]> (<["bucketName" := b]> (∅ : gmap string StringInput))
  = {[ "bucketName" := b; "cloudFrontDist" := d ]}.
Proof. by rewrite insert_insert_ne, insert_empty. Qed.

(** Bring the context of the goal and the log of the hypotheses to an explicit
    list after a step. *)
Ltac advance := unfold record; cbn [events exports app] in *.

(** Membership in an explicit log. *)
Ltac find_in := first [ reflexivity | left; find_in | right; find_in ].
Ltac find_elem :=
  cbn [events];
  repeat first [ rewrite elem_of_app | rewrite elem_of_cons ];
  find_in.

Section Shape.
Variables (engine : Engine) (project : Project.t) (environment : Environment.t)
          (site : Site.t) (domain : Domain.t).

Local Abbreviation expected := (expected project environment site domain).
Local Abbreviation all_expected := (all_expected project environment site domain).
Local Abbreviation complete := (complete project environment site domain).
Local Abbreviation sound := (sound project environment site domain).
Local Abbreviation post := (post project environment site domain).

Lemma expected_mono l l' d :
  (∀ ev, ev ∈ l → ev ∈ l') → expected l d → expected l' d.
Proof.
  intros Hsub. destruct d; simpl; try done.
  - intros (b & ? & ?). eauto.
  - intros (fs & b & f & ? & ? & ? & ?). eauto 10.
  - intros (z & ? & [(c & i & ? & ? & ?)|(b & c & o & dist & rec & ? & ? & ?)]);
      exists z; (split; [eauto|]); [left|right]; eauto 12.
  - intros (b & c & o & ? & ? & ? & ?). eauto 10.
  - intros (b & o & ? & ? & ?). eauto 10.
Qed.

Lemma all_expected_snoc l d a :
  all_expected l → expected l d → all_expected (l ++ [NewResource d a]).
Proof.
  intros Hl Hd d' a' Hin.
  assert (∀ ev, ev ∈ l → ev ∈ l ++ [NewResource d a]) as Hsub
    by (intros ev; rewrite elem_of_app; tauto).
  apply elem_of_app in Hin as [Hin|Hin].
  - eapply expected_mono; [done|]. by eapply Hl.
  - apply list_elem_of_singleton in Hin. injection Hin as -> ->.
    by eapply expected_mono.
Qed.

Lemma all_expected_snoc_other l ev :
  all_expected l → declaration_of ev = None → all_expected (l ++ [ev]).
Proof.
  intros Hl Hev d a Hin.
  assert (∀ ev', ev' ∈ l → ev' ∈ l ++ [ev]) as Hsub
    by (intros ev'; rewrite elem_of_app; tauto).
  apply elem_of_app in Hin as [Hin|Hin].
  - eapply expected_mono; [done|]. by eapply Hl.
  - apply list_elem_of_singleton in Hin. by subst ev.
Qed.

Lemma sound_snoc l d r :
  sound l → expected l d → sound (l ++ [NewResource d (inr r)]).
Proof.
  intros [Hl Hc] Hd. split; [by apply all_expected_snoc | by apply clean_snoc].
Qed.

Lemma post_error ctx d e :
  sound (events ctx) → expected (events ctx) d →
  post (Some e) (record (NewResource d (inl e)) ctx).
Proof.
  intros [Hl Hc] Hd. split; [|split]; simpl.
  - by apply all_expected_snoc.
  - by apply first_error_last.
  - done.
Qed.

Lemma step_register d (k : Resource → Run (option Error)) ctx :
  sound (events ctx) → expected (events ctx) d →
  (∀ r, sound (events ctx ++ [NewResource d (inr r)]) →
        wp (k r) post (record (NewResource d (inr r)) ctx)) →
  wp (x <-? register engine d ;; k x) post ctx.
Proof.
  intros Hs Hd Hk. apply wp_try_register.
  - intros e. by apply post_error.
  - intros r. apply Hk. by apply sound_snoc.
Qed.

Lemma sound_nil : sound [].
Proof. split; [intros ?? H; inversion H | constructor]. Qed.

Lemma sound_snoc_other l ev :
  sound l → declaration_of ev = None → error_of ev = None → sound (l ++ [ev]).
Proof.
  intros [Hl Hc] Hd He.
  split; [by apply all_expected_snoc_other | by apply clean_snoc].
Qed.

Lemma post_error_other ctx ev e :
  sound (events ctx) → declaration_of ev = None → error_of ev = Some e →
  post (Some e) (record ev ctx).
Proof.
  intros [Hl Hc] Hd He. split; [|split]; simpl.
  - by apply all_expected_snoc_other.
  - by apply first_error_last.
  - done.
Qed.

Lemma step_ReadDir path (k : list DirEntry.t → Run (option Error)) ctx :
  sound (events ctx) →
  (∀ files, sound (events ctx ++ [ReadDir path (inr files)]) →
            wp (k files) post (record (ReadDir path (inr files)) ctx)) →
  wp (x <-? os_ReadDir engine path ;; k x) post ctx.
Proof.
  intros Hs Hk. apply wp_try_ReadDir.
  - intros e. by apply post_error_other.
  - intros files. apply Hk. by apply sound_snoc_other.
Qed.

Lemma step_LookupZone args (k : LookupZoneResult.t → Run (option Error)) ctx :
  sound (events ctx) →
  (∀ zone, sound (events ctx ++ [LookupZone args (inr zone)]) →
           wp (k zone) post (record (LookupZone args (inr zone)) ctx)) →
  wp (x <-? route53_LookupZone engine args ;; k x) post ctx.
Proof.
  intros Hs Hk. apply wp_try_LookupZone.
  - intros e. by apply post_error_other.
  - intros zone. apply Hk. by apply sound_snoc_other.
Qed.

Lemma expected_object l files bucket done file rest :
  ReadDir (readDirPath site) (inr files) ∈ l →
  NewResource (bucketDecl project environment domain) (inr bucket) ∈ l →
  files = done ++ file :: rest →
  expected l (objectDecl project environment site bucket file).
Proof.
  intros Hdir Hbucket ->. exists (done ++ file :: rest), bucket, file.
  repeat split; [done| |done]. find_elem.
Qed.

Lemma stack_post :
  wp (stack engine project environment site domain) post
     {| events := []; exports := ∅ |}.
Proof.
  unfold stack. cbv zeta.
  apply step_ReadDir; [apply sound_nil|]. intros files Hs.
  advance.
  apply step_LookupZone; [exact Hs|]. clear Hs. intros zone Hs.
  advance.
  apply step_register; [exact Hs|reflexivity|]. clear Hs. intros bucket Hs.
  advance.
  apply step_register; [exact Hs| |].
  { exists bucket. split; [find_elem|reflexivity]. }
  clear Hs. intros pab Hs.
  advance.
  (* the upload loop *)
  match type of Hs with sound ?l => set (l4 := l) in * end.
  apply wp_check.
  apply (wp_range (λ done ctx', ∃ rs,
    length rs = length done ∧
    events ctx' = l4 ++ objectEvents project environment site bucket done rs ∧
    exports ctx' = ∅ ∧ sound (events ctx'))).
  { exists []. cbn [objectEvents zip_with length events exports]. by rewrite app_nil_r. }
  { intros done file rest ctx' Hfiles (rs & Hlen & Hev & Hex & Hs').
    assert (expected (events ctx')
              (objectDecl project environment site bucket file)) as Hd.
    { eapply expected_object; [| |done]; rewrite Hev; subst l4; find_elem. }
    apply wp_try_register.
    - intros e. by apply post_error.
    - intros r. apply wp_ret. exists (rs ++ [r]).
      unfold record; cbn [events exports].
      split; [|split; [|split]]; [|..|done|by apply sound_snoc].
      + by rewrite !length_app, Hlen.
      + rewrite Hev. unfold objectEvents. rewrite zip_with_app by done.
        by rewrite <- app_assoc. }
  clear Hs. intros [l ex] (objs & Hlen & Hev & Hex & Hs). simpl in Hev, Hex, Hs.
  subst l ex l4.
  (* the certificate and its two validation records *)
  apply step_register; [exact Hs|reflexivity|]. clear Hs. intros cert Hs.
  advance.
  rewrite for_upto_0_1.
  apply wp_check_assoc, wp_check_try.
  apply step_register; [exact Hs| |].
  { exists zone. split; [find_elem|]. left. exists cert, 0.
    split; [find_elem|]. split; [by left|reflexivity]. }
  clear Hs. intros c0 Hs.
  advance.
  apply wp_check_ret, wp_check_assoc, wp_check_try.
  apply step_register; [exact Hs| |].
  { exists zone. split; [find_elem|]. left. exists cert, 1.
    split; [find_elem|]. split; [by right|reflexivity]. }
  clear Hs. intros c1 Hs.
  advance.
  apply wp_check_ret, wp_check_ret.
  (* the origin access identity and the distribution *)
  apply step_register; [exact Hs|reflexivity|]. clear Hs. intros oai Hs.
  advance.
  apply step_register; [exact Hs| |].
  { exists bucket, cert, oai. repeat split; find_elem. }
  clear Hs. intros dist Hs.
  advance.
  (* the four alias records *)
  rewrite range_2.
  apply wp_check_assoc, wp_check_try.
  apply step_register; [exact Hs| |].
  { exists zone. split; [find_elem|]. right. exists bucket, cert, oai, dist, "A".
    split; [find_elem|]. split; [by left|by left]. }
  clear Hs. intros a1 Hs.
  advance.
  apply wp_check_try.
  apply step_register; [exact Hs| |].
  { exists zone. split; [find_elem|]. right. exists bucket, cert, oai, dist, "A".
    split; [find_elem|]. split; [by left|by right]. }
  clear Hs. intros a2 Hs.
  advance.
  apply wp_check_ret, wp_check_assoc, wp_check_try.
  apply step_register; [exact Hs| |].
  { exists zone. split; [find_elem|]. right. exists bucket, cert, oai, dist, "AAAA".
    split; [find_elem|]. split; [by right|by left]. }
  clear Hs. intros a3 Hs.
  advance.
  apply wp_check_try.
  apply step_register; [exact Hs| |].
  { exists zone. split; [find_elem|]. right. exists bucket, cert, oai, dist, "AAAA".
    split; [find_elem|]. split; [by right|by right]. }
  clear Hs. intros a4 Hs.
  advance.
  apply wp_check_ret, wp_check_ret.
  (* the bucket policy and the exports *)
  apply step_register; [exact Hs| |].
  { exists bucket, oai. repeat split; find_elem. }
  clear Hs. intros pol Hs.
  advance.
  apply wp_Export, wp_Export, wp_ret. cbn [events exports].
  destruct Hs as [Hexp Hclean].
  split; [exact Hexp|]. split; [exact Hclean|]. intros _.
  exists {| files := files; domainZone := zone; bucket := bucket;
            publicAccessBlock := pab; objects := objs; certificate := cert;
            cname0 := c0; cname1 := c1; originAccessId := oai;
            cloudFrontDist := dist; recordA := a1; wwwRecordA := a2;
            recordAAAA := a3; wwwRecordAAAA := a4; bucketPolicy := pol |}.
  split; [exact Hlen|]. split; [|apply exports_two].
  unfold completeLog. cbn -[String.append pretty].
  by rewrite <- !app_assoc.
Qed.
End Shape.

(** ** Every run *)

Lemma main_run engine : main engine = run engine stratusLabs dev wwwSite stratuslabsNet.
Proof. reflexivity. Qed.

(** [main] on the two example engines: with every step succeeding it makes
    its 14 declarations, 2 of them objects, 2 validation records and 4 alias
    records; with the certificate refused it stops at the seventh step. *)
Example main_okEngine :
  (main okEngine).1 = None ∧
  length (declarations (main okEngine).2) = 14%nat ∧
  length (List.filter is_object (declarations (main okEngine).2)) = 2%nat ∧
  length (List.filter is_cname (declarations (main okEngine).2)) = 2%nat ∧
  length (List.filter is_alias (declarations (main okEngine).2)) = 4%nat.
Proof. vm_compute. by repeat split. Qed.

Example main_noCertificateEngine :
  (main noCertificateEngine).1 = Some (Err "LimitExceededException") ∧
  length (events (main noCertificateEngine).2) = 7%nat ∧
  exports (main noCertificateEngine).2 = ∅.
Proof. vm_compute. by repeat split. Qed.

Lemma run_post engine project environment site domain :
  post project environment site domain
    (run engine project environment site domain).1
    (run engine project environment site domain).2.
Proof. apply stack_post. Qed.

Lemma run_expected engine project environment site domain d r :
  NewResource d r ∈ events (run engine project environment site domain).2 →
  expected project environment site domain
    (events (run engine project environment site domain).2) d.
Proof. intros Hin. by eapply (proj1 (run_post _ _ _ _ _)). Qed.

Lemma run_complete engine project environment site domain :
  (run engine project environment site domain).1 = None →
  ∃ a, complete project environment site domain
         (run engine project environment site domain).2 a.
Proof. apply (run_post engine project environment site domain). Qed.

Lemma omap_objectEvents project environment site bucket files objects :
  length objects = length files →
  omap declaration_of (objectEvents project environment site bucket files objects)
  = map (objectDecl project environment site bucket) files.
Proof.
  unfold objectEvents. revert objects.
  induction files as [|file files IH]; intros [|r objects] Hlen; simplify_eq/=; [done|].
  f_equal. by apply IH.
Qed.

Lemma declarations_complete project environment site domain ctx a :
  complete project environment site domain ctx a →
  declarations ctx = completeDeclarations project environment site domain a.
Proof.
  intros (Hlen & Hev & _). unfold declarations, completeDeclarations.
  rewrite Hev. unfold completeLog. rewrite !omap_app.
  by rewrite omap_objectEvents.
Qed.

Lemma filter_objects (P : Declaration → bool) project environment site bucket files :
  (∀ file, P (objectDecl project environment site bucket file) = false) →
  List.filter P (map (objectDecl project environment site bucket) files) = [].
Proof.
  intros HP. induction files as [|file files IH]; [done|].
  simpl. by rewrite HP.
Qed.

Lemma filter_all_objects project environment site bucket files :
  List.filter is_object (map (objectDecl project environment site bucket) files)
  = map (objectDecl project environment site bucket) files.
Proof. induction files as [|file files IH]; [done|]. simpl. by f_equal. Qed.

(** The members of a complete log. *)
Lemma complete_elem project environment site domain ctx a :
  complete project environment site domain ctx a →
  ReadDir (readDirPath site) (inr (files a)) ∈ events ctx ∧
  LookupZone (lookupZoneArgs domain) (inr (domainZone a)) ∈ events ctx ∧
  NewResource (bucketDecl project environment domain) (inr (bucket a)) ∈ events ctx ∧
  NewResource (certificateDecl project environment domain) (inr (certificate a))
    ∈ events ctx ∧
  NewResource (originAccessIdentityDecl project) (inr (originAccessId a)) ∈ events ctx ∧
  NewResource (distributionDecl project environment domain
              (bucket a) (certificate a) (originAccessId a))
    (inr (cloudFrontDist a)) ∈ events ctx.
Proof.
  intros (_ & -> & _). unfold completeLog. repeat split; find_elem.
Qed.

(** A step after a failed one contradicts [first_error_wins]. *)
Lemma first_error_is_last l r h ev t e :
  first_error_wins l r → l = h ++ ev :: t → error_of ev = Some e →
  t = [] ∧ r = Some e.
Proof.
  intros Hl -> Hev. destruct r as [e'|]; simpl in Hl.
  - destruct Hl as (h' & ev' & Heq & Hclean & Hev').
    destruct t as [|x t _] using rev_ind.
    + apply app_inj_tail in Heq as [-> ->]. split; [done|]. congruence.
    + rewrite app_comm_cons, app_assoc in Heq.
      apply app_inj_tail in Heq as [<- _].
      apply Forall_app in Hclean as [_ Hclean].
      apply Forall_cons in Hclean as [Hnone _]. congruence.
  - apply Forall_app in Hl as [_ Hl]. apply Forall_cons in Hl as [Hnone _].
    congruence.
Qed.

(** ** The claims *)

(** C7: price-class resolution is a total function of the environment name:
    ["dev"] gives the regional tier [PriceClass_100], ["prod"] the global tier
    [PriceClass_All], and every other name gives what ["dev"] gives; the
    distribution is declared with the token it returns. *)
Theorem priceClass_table (environment : Environment.t) :
  priceClass {| Environment.name := "dev" |} = "PriceClass_100" ∧
  priceClass {| Environment.name := "prod" |} = "PriceClass_All" ∧
  priceClass environment =
    (if decide (Environment.name environment = "prod")
     then priceClass {| Environment.name := "prod" |}
     else priceClass {| Environment.name := "dev" |}) ∧
  ∀ (project : Project.t) (domain : Domain.t) (bucket certificate originAccessId : Resource),
    ∃ name args,
      distributionDecl project environment domain bucket certificate originAccessId
      = CloudfrontDistribution name args ∧
      DistributionArgs.PriceClass args = String (priceClass environment).
Proof.
  split; [done|]. split; [done|]. split.
  - unfold priceClass. simpl. case_decide as Hprod.
    + rewrite Hprod. done.
    + destruct (String.eqb_spec (Environment.name environment) "dev"); [done|].
      destruct (String.eqb_spec (Environment.name environment) "prod"); done.
  - intros. by eexists _, _.
Qed.

(** C4: when a step of the stack definition (the directory read, the zone
    lookup, a resource declaration) reports an error, that step is the last
    one of the run, every step before it succeeded, and the run returns that
    very error. *)
Theorem first_error_aborts_run engine project environment site domain h ev t e :
  events (run engine project environment site domain).2 = h ++ ev :: t →
  error_of ev = Some e →
  t = [] ∧ clean h ∧ (run engine project environment site domain).1 = Some e.
Proof.
  intros Hlog Hev.
  pose proof (run_post engine project environment site domain) as (_ & Hfirst & _).
  destruct (first_error_is_last _ _ _ _ _ _ Hfirst Hlog Hev) as [-> Hr].
  split; [done|]. split; [|done].
  rewrite Hr in Hfirst. destruct Hfirst as (h' & ev' & Heq & Hclean & _).
  rewrite Hlog in Heq. by apply app_inj_tail in Heq as [-> _].
Qed.

Lemma first_error_aborts_run_witness :
  (events noCertificateRun.2
   = take 6 (events noCertificateRun.2)
     ++ [ NewResource (certificateDecl stratusLabs dev stratuslabsNet)
            (inl (Err "LimitExceededException")) ] ∧
   error_of (NewResource (certificateDecl stratusLabs dev stratuslabsNet)
               (inl (Err "LimitExceededException")))
   = Some (Err "LimitExceededException")) ∧
  clean (take 6 (events noCertificateRun.2)) ∧
  noCertificateRun.1 = Some (Err "LimitExceededException").
Proof.
  assert (events noCertificateRun.2
          = take 6 (events noCertificateRun.2)
            ++ [ NewResource (certificateDecl stratusLabs dev stratuslabsNet)
                   (inl (Err "LimitExceededException")) ])
    as Hlog by (vm_compute; reflexivity).
  split; [split; [exact Hlog|reflexivity]|].
  exact (proj2 (first_error_aborts_run noCertificateEngine stratusLabs dev wwwSite
                  stratuslabsNet _ _ [] _ Hlog eq_refl)).
Defined.

(** Conversely, a run only ever returns an error that its last step reported,
    and a run that returns none had no failed step. *)
Lemma run_error_is_step_error engine project environment site domain :
  first_error_wins (events (run engine project environment site domain).2)
    (run engine project environment site domain).1.
Proof. apply (run_post engine project environment site domain). Qed.

(** C10: every public-access-block declaration of a run names the bucket
    that the run created, by its identifier, and sets all four of
    [BlockPublicAcls], [BlockPublicPolicy], [IgnorePublicAcls] and
    [RestrictPublicBuckets]. *)
Theorem public_access_block_blocks_all engine project environment site domain
    name args r :
  NewResource (S3BucketPublicAccessBlock name args) r
    ∈ events (run engine project environment site domain).2 →
  ∃ bucket,
    NewResource (bucketDecl project environment domain) (inr bucket)
      ∈ events (run engine project environment site domain).2 ∧
    BucketPublicAccessBlockArgs.Bucket args = ID bucket ∧
    BucketPublicAccessBlockArgs.BlockPublicAcls args = true ∧
    BucketPublicAccessBlockArgs.BlockPublicPolicy args = true ∧
    BucketPublicAccessBlockArgs.IgnorePublicAcls args = true ∧
    BucketPublicAccessBlockArgs.RestrictPublicBuckets args = true.
Proof.
  intros Hin. apply run_expected in Hin as (bucket & Hbucket & Heq).
  injection Heq as -> ->. by exists bucket.
Qed.

Lemma public_access_block_blocks_all_witness :
  NewResource (S3BucketPublicAccessBlock "stratusLabsBucketNoPublic"
              (bucketPublicAccessBlockArgs (Res 2))) (inr (Res 3))
    ∈ events okRun.2 ∧
  ∃ bucket,
    NewResource (bucketDecl stratusLabs dev stratuslabsNet) (inr bucket)
      ∈ events okRun.2 ∧
    BucketPublicAccessBlockArgs.Bucket (bucketPublicAccessBlockArgs (Res 2)) = ID bucket ∧
    BucketPublicAccessBlockArgs.BlockPublicAcls (bucketPublicAccessBlockArgs (Res 2)) = true ∧
    BucketPublicAccessBlockArgs.BlockPublicPolicy (bucketPublicAccessBlockArgs (Res 2)) = true ∧
    BucketPublicAccessBlockArgs.IgnorePublicAcls (bucketPublicAccessBlockArgs (Res 2)) = true ∧
    BucketPublicAccessBlockArgs.RestrictPublicBuckets (bucketPublicAccessBlockArgs (Res 2)) = true.
Proof.
  assert (NewResource (S3BucketPublicAccessBlock "stratusLabsBucketNoPublic"
                      (bucketPublicAccessBlockArgs (Res 2))) (inr (Res 3))
            ∈ events okRun.2) as Hin
    by (apply (list_elem_of_lookup_2 _ 3%nat); vm_compute; reflexivity).
  split; [exact Hin|].
  exact (public_access_block_blocks_all okEngine stratusLabs dev wwwSite
           stratuslabsNet _ _ _ Hin).
Defined.

(** C8: every certificate declaration of a run is for the configured domain,
    with [www.<domain>] as its only subject alternative name and ["DNS"] as
    its validation method. *)
Theorem certificate_for_domain_and_www engine project environment site domain
    name args r :
  NewResource (AcmCertificate name args) r
    ∈ events (run engine project environment site domain).2 →
  CertificateArgs.DomainName args = String (Domain.name domain) ∧
  CertificateArgs.SubjectAlternativeNames args
    = [ String ("www." +:+ Domain.name domain) ] ∧
  CertificateArgs.ValidationMethod args = String "DNS".
Proof.
  intros Hin. apply run_expected in Hin. simpl in Hin.
  by injection Hin as -> ->.
Qed.

Lemma certificate_for_domain_and_www_witness :
  NewResource (AcmCertificate "stratusLabsCert"
              (certificateArgs stratuslabsNet (tagsOf stratusLabs dev)))
    (inr (Res 6)) ∈ events okRun.2 ∧
  CertificateArgs.DomainName (certificateArgs stratuslabsNet (tagsOf stratusLabs dev))
    = String "stratuslabs.net" ∧
  CertificateArgs.SubjectAlternativeNames
    (certificateArgs stratuslabsNet (tagsOf stratusLabs dev))
    = [ String "www.stratuslabs.net" ] ∧
  CertificateArgs.ValidationMethod (certificateArgs stratuslabsNet (tagsOf stratusLabs dev))
    = String "DNS".
Proof.
  assert (NewResource (AcmCertificate "stratusLabsCert"
                      (certificateArgs stratuslabsNet (tagsOf stratusLabs dev)))
            (inr (Res 6)) ∈ events okRun.2) as Hin
    by (apply (list_elem_of_lookup_2 _ 6%nat); vm_compute; reflexivity).
  split; [exact Hin|].
  exact (certificate_for_domain_and_www okEngine stratusLabs dev wwwSite
           stratuslabsNet _ _ _ Hin).
Defined.

(** C1: every bucket-policy declaration of a run carries a policy document
    with exactly one statement; the statement's actions are exactly
    [s3:GetObject], its one principal has the IAM ARN of the origin access
    identity the run created as its only identifier, and its only resource
    is the ARN of the bucket the run created followed by [/*]; the policy is
    attached to that bucket, by its identifier. *)
Theorem bucket_policy_reads_for_identity engine project environment site domain
    name args r :
  NewResource (S3BucketPolicy name args) r
    ∈ events (run engine project environment site domain).2 →
  ∃ bucket originAccessId doc statement principal,
    NewResource (bucketDecl project environment domain) (inr bucket)
      ∈ events (run engine project environment site domain).2 ∧
    NewResource (originAccessIdentityDecl project) (inr originAccessId)
      ∈ events (run engine project environment site domain).2 ∧
    BucketPolicyArgs.Bucket args = ID bucket ∧
    BucketPolicyArgs.Policy args = Json (GetPolicyDocumentOutput doc) ∧
    GetPolicyDocumentOutputArgs.Statements doc = [statement] ∧
    GetPolicyDocumentStatementArgs.Actions statement = [String "s3:GetObject"] ∧
    GetPolicyDocumentStatementArgs.Principals statement = [principal] ∧
    GetPolicyDocumentStatementPrincipalArgs.Identifiers principal
      = [Out originAccessId IamArn] ∧
    GetPolicyDocumentStatementArgs.Resources statement
      = [Sprintf_v (Out bucket Arn) "/*"] ∧
    ∀ σ, resolve σ (Sprintf_v (Out bucket Arn) "/*")
         = Some (property (σ bucket) Arn +:+ "/*").
Proof.
  intros Hin. apply run_expected in Hin as (bucket & oai & Hb & Ho & Heq).
  injection Heq as -> ->.
  exists bucket, oai. eexists _, _, _. by repeat split.
Qed.

Lemma bucket_policy_reads_for_identity_witness :
  NewResource (bucketPolicyDecl stratuslabsNet (Res 2) (Res 9)) (inr (Res 15))
    ∈ events okRun.2 ∧
  ∃ bucket originAccessId doc statement principal,
    NewResource (bucketDecl stratusLabs dev stratuslabsNet) (inr bucket)
      ∈ events okRun.2 ∧
    NewResource (originAccessIdentityDecl stratusLabs) (inr originAccessId)
      ∈ events okRun.2 ∧
    ID (Res 2) = ID bucket ∧
    Json (GetPolicyDocumentOutput (policyDocumentArgs (Res 2) (Res 9)))
      = Json (GetPolicyDocumentOutput doc) ∧
    GetPolicyDocumentOutputArgs.Statements doc = [statement] ∧
    GetPolicyDocumentStatementArgs.Actions statement = [String "s3:GetObject"] ∧
    GetPolicyDocumentStatementArgs.Principals statement = [principal] ∧
    GetPolicyDocumentStatementPrincipalArgs.Identifiers principal
      = [Out originAccessId IamArn] ∧
    GetPolicyDocumentStatementArgs.Resources statement
      = [Sprintf_v (Out bucket Arn) "/*"] ∧
    ∀ σ, resolve σ (Sprintf_v (Out bucket Arn) "/*")
         = Some (property (σ bucket) Arn +:+ "/*").
Proof.
  assert (NewResource (bucketPolicyDecl stratuslabsNet (Res 2) (Res 9)) (inr (Res 15))
            ∈ events okRun.2) as Hin
    by (apply (list_elem_of_lookup_2 _ 15%nat); vm_compute; reflexivity).
  split; [exact Hin|].
  exact (bucket_policy_reads_for_identity okEngine stratusLabs dev wwwSite
           stratuslabsNet _ _ _ Hin).
Defined.

(** C2: every distribution declaration of a run has exactly one origin, the
    regional domain name of the bucket the run created, read through the
    path of the origin access identity the run created; its default cache
    behaviour allows and caches exactly GET and HEAD, forwards neither query
    strings nor cookies, redirects viewers to HTTPS and has the TTLs 0, 3600
    and 86400; its aliases are exactly the domain and [www.<domain>]; it has
    no geo restriction; and its viewer certificate is the ARN of the
    certificate the run created, served with [sni-only] and the minimum
    protocol version [TLSv1.2_2021]. *)
Theorem distribution_settings engine project environment site domain name args r :
  NewResource (CloudfrontDistribution name args) r
    ∈ events (run engine project environment site domain).2 →
  ∃ bucket certificate originAccessId origin,
    NewResource (bucketDecl project environment domain) (inr bucket)
      ∈ events (run engine project environment site domain).2 ∧
    NewResource (certificateDecl project environment domain) (inr certificate)
      ∈ events (run engine project environment site domain).2 ∧
    NewResource (originAccessIdentityDecl project) (inr originAccessId)
      ∈ events (run engine project environment site domain).2 ∧
    DistributionArgs.Origins args = [origin] ∧
    DistributionOriginArgs.DomainName origin = Out bucket BucketRegionalDomainName ∧
    DistributionOriginS3OriginConfigArgs.OriginAccessIdentity
      (DistributionOriginArgs.S3OriginConfig origin)
      = Out originAccessId CloudfrontAccessIdentityPath ∧
    DistributionDefaultCacheBehaviorArgs.AllowedMethods
      (DistributionArgs.DefaultCacheBehavior args) = [String "GET"; String "HEAD"] ∧
    DistributionDefaultCacheBehaviorArgs.CachedMethods
      (DistributionArgs.DefaultCacheBehavior args) = [String "GET"; String "HEAD"] ∧
    DistributionDefaultCacheBehaviorForwardedValuesArgs.QueryString
      (DistributionDefaultCacheBehaviorArgs.ForwardedValues
         (DistributionArgs.DefaultCacheBehavior args)) = false ∧
    DistributionDefaultCacheBehaviorForwardedValuesCookiesArgs.Forward
      (DistributionDefaultCacheBehaviorForwardedValuesArgs.Cookies
         (DistributionDefaultCacheBehaviorArgs.ForwardedValues
            (DistributionArgs.DefaultCacheBehavior args))) = String "none" ∧
    DistributionDefaultCacheBehaviorArgs.ViewerProtocolPolicy
      (DistributionArgs.DefaultCacheBehavior args) = String "redirect-to-https" ∧
    DistributionDefaultCacheBehaviorArgs.MinTtl
      (DistributionArgs.DefaultCacheBehavior args) = 0 ∧
    DistributionDefaultCacheBehaviorArgs.DefaultTtl
      (DistributionArgs.DefaultCacheBehavior args) = 3600 ∧
    DistributionDefaultCacheBehaviorArgs.MaxTtl
      (DistributionArgs.DefaultCacheBehavior args) = 86400 ∧
    DistributionArgs.Aliases args
      = [String (Domain.name domain); String ("www." +:+ Domain.name domain)] ∧
    DistributionRestrictionsGeoRestrictionArgs.RestrictionType
      (DistributionRestrictionsArgs.GeoRestriction
         (DistributionArgs.Restrictions args)) = String "none" ∧
    DistributionViewerCertificateArgs.AcmCertificateArn
      (DistributionArgs.ViewerCertificate args) = Out certificate Arn ∧
    DistributionViewerCertificateArgs.SslSupportMethod
      (DistributionArgs.ViewerCertificate args) = String "sni-only" ∧
    DistributionViewerCertificateArgs.MinimumProtocolVersion
      (DistributionArgs.ViewerCertificate args) = String "TLSv1.2_2021".
Proof.
  intros Hin. apply run_expected in Hin as (bucket & cert & oai & Hb & Hc & Ho & Heq).
  injection Heq as -> ->.
  exists bucket, cert, oai. eexists. by repeat split.
Qed.

Lemma distribution_settings_witness :
  NewResource (CloudfrontDistribution "stratusLabsDistribution" okDistributionArgs)
      (inr (Res 10))
    ∈ events okRun.2 ∧
    ∃ bucket certificate originAccessId origin,
    NewResource (bucketDecl stratusLabs dev stratuslabsNet) (inr bucket)
      ∈ events okRun.2 ∧
    NewResource (certificateDecl stratusLabs dev stratuslabsNet) (inr certificate)
      ∈ events okRun.2 ∧
    NewResource (originAccessIdentityDecl stratusLabs) (inr originAccessId)
      ∈ events okRun.2 ∧
    DistributionArgs.Origins okDistributionArgs = [origin] ∧
    DistributionOriginArgs.DomainName origin = Out bucket BucketRegionalDomainName ∧
    DistributionOriginS3OriginConfigArgs.OriginAccessIdentity
      (DistributionOriginArgs.S3OriginConfig origin)
      = Out originAccessId CloudfrontAccessIdentityPath ∧
    DistributionDefaultCacheBehaviorArgs.AllowedMethods
      (DistributionArgs.DefaultCacheBehavior okDistributionArgs) = [String "GET"; String "HEAD"] ∧
    DistributionDefaultCacheBehaviorArgs.CachedMethods
      (DistributionArgs.DefaultCacheBehavior okDistributionArgs) = [String "GET"; String "HEAD"] ∧
    DistributionDefaultCacheBehaviorForwardedValuesArgs.QueryString
      (DistributionDefaultCacheBehaviorArgs.ForwardedValues
         (DistributionArgs.DefaultCacheBehavior okDistributionArgs)) = false ∧
    DistributionDefaultCacheBehaviorForwardedValuesCookiesArgs.Forward
      (DistributionDefaultCacheBehaviorForwardedValuesArgs.Cookies
         (DistributionDefaultCacheBehaviorArgs.ForwardedValues
            (DistributionArgs.DefaultCacheBehavior okDistributionArgs))) = String "none" ∧
    DistributionDefaultCacheBehaviorArgs.ViewerProtocolPolicy
      (DistributionArgs.DefaultCacheBehavior okDistributionArgs) = String "redirect-to-https" ∧
    DistributionDefaultCacheBehaviorArgs.MinTtl
      (DistributionArgs.DefaultCacheBehavior okDistributionArgs) = 0 ∧
    DistributionDefaultCacheBehaviorArgs.DefaultTtl
      (DistributionArgs.DefaultCacheBehavior okDistributionArgs) = 3600 ∧
    DistributionDefaultCacheBehaviorArgs.MaxTtl
      (DistributionArgs.DefaultCacheBehavior okDistributionArgs) = 86400 ∧
    DistributionArgs.Aliases okDistributionArgs
      = [String (Domain.name stratuslabsNet); String ("www." +:+ Domain.name stratuslabsNet)] ∧
    DistributionRestrictionsGeoRestrictionArgs.RestrictionType
      (DistributionRestrictionsArgs.GeoRestriction
         (DistributionArgs.Restrictions okDistributionArgs)) = String "none" ∧
    DistributionViewerCertificateArgs.AcmCertificateArn
      (DistributionArgs.ViewerCertificate okDistributionArgs) = Out certificate Arn ∧
    DistributionViewerCertificateArgs.SslSupportMethod
      (DistributionArgs.ViewerCertificate okDistributionArgs) = String "sni-only" ∧
    DistributionViewerCertificateArgs.MinimumProtocolVersion
      (DistributionArgs.ViewerCertificate okDistributionArgs) = String "TLSv1.2_2021".
Proof.
  assert (NewResource (CloudfrontDistribution "stratusLabsDistribution" okDistributionArgs)
      (inr (Res 10))
    ∈ events okRun.2)
    as Hin by (apply (list_elem_of_lookup_2 _ 10%nat); vm_compute; reflexivity).
  split; [exact Hin|].
  exact (distribution_settings okEngine stratusLabs dev wwwSite
           stratuslabsNet _ _ _ Hin).
Defined.

(** C5: in a run without error the object declarations are, entry by entry,
    those of the directory listing: the object of an entry has the entry's
    name as its key, the file [<site dir>/<name>] as its source and the
    content type ["text/html"]; there are no other object declarations. *)
Theorem one_object_per_file engine project environment site domain :
  (run engine project environment site domain).1 = None →
  ∃ files bucket,
    ReadDir (Site.dir site +:+ "/") (inr files)
      ∈ events (run engine project environment site domain).2 ∧
    NewResource (bucketDecl project environment domain) (inr bucket)
      ∈ events (run engine project environment site domain).2 ∧
    List.filter is_object
      (declarations (run engine project environment site domain).2)
    = map (λ file,
        S3BucketObject (DirEntry.Name file)
          {| BucketObjectArgs.Key := String (DirEntry.Name file);
             BucketObjectArgs.Bucket := ID bucket;
             BucketObjectArgs.Source :=
               NewFileAsset (Site.dir site +:+ "/" +:+ DirEntry.Name file);
             BucketObjectArgs.ContentType := String "text/html";
             BucketObjectArgs.Tags :=
               ToStringMap (Tags.tags (tagsOf project environment)) |}) files.
Proof.
  intros Hok. destruct (run_complete _ _ _ _ _ Hok) as [a Ha].
  destruct (complete_elem _ _ _ _ _ _ Ha) as (Hdir & _ & Hbucket & _).
  exists (files a), (bucket a). split; [exact Hdir|]. split; [exact Hbucket|].
  rewrite (declarations_complete _ _ _ _ _ _ Ha). unfold completeDeclarations.
  rewrite !List.filter_app, filter_all_objects. simpl. by rewrite app_nil_r.
Qed.

Lemma one_object_per_file_witness :
  okRun.1 = None ∧
  ∃ files bucket,
    ReadDir "./www/_site/" (inr files) ∈ events okRun.2 ∧
    NewResource (bucketDecl stratusLabs dev stratuslabsNet) (inr bucket)
      ∈ events okRun.2 ∧
    List.filter is_object (declarations okRun.2)
    = map (λ file,
        S3BucketObject (DirEntry.Name file)
          {| BucketObjectArgs.Key := String (DirEntry.Name file);
             BucketObjectArgs.Bucket := ID bucket;
             BucketObjectArgs.Source :=
               NewFileAsset ("./www/_site" +:+ "/" +:+ DirEntry.Name file);
             BucketObjectArgs.ContentType := String "text/html";
             BucketObjectArgs.Tags :=
               ToStringMap (Tags.tags (tagsOf stratusLabs dev)) |}) files.
Proof.
  split; [reflexivity|].
  apply (one_object_per_file okEngine stratusLabs dev wwwSite stratuslabsNet).
  reflexivity.
Defined.

(** C3: in a run without error exactly two records of type [CNAME] are
    declared, named with the indices 0 and 1; record [i] takes its name from
    the resource record name of the certificate's validation option at
    position [i], and its only value from the resource record value of the
    same option.  When the certificate resolves to at least two validation
    options both records resolve, to the fields of the options 0 and 1; with
    fewer than two, position 1 is out of range and record 1 does not
    resolve. *)
Theorem two_validation_records engine project environment site domain :
  (run engine project environment site domain).1 = None →
  ∃ zone certificate,
    LookupZone {| LookupZoneArgs.Name := Some (Domain.name domain) |} (inr zone)
      ∈ events (run engine project environment site domain).2 ∧
    NewResource (certificateDecl project environment domain) (inr certificate)
      ∈ events (run engine project environment site domain).2 ∧
    List.filter is_cname
      (declarations (run engine project environment site domain).2)
    = map (λ i : Z,
        Route53Record (Project.name project +:+ "Cname" +:+ pretty i)
          {| RecordArgs.ZoneId := String (LookupZoneResult.Id zone);
             RecordArgs.Name :=
               DomainValidationOptions_Index certificate i ResourceRecordName;
             RecordArgs.Type_ := String "CNAME";
             RecordArgs.Ttl := Some 60;
             RecordArgs.Records :=
               [DomainValidationOptions_Index certificate i ResourceRecordValue];
             RecordArgs.Aliases := [] |}) [0; 1] ∧
    pretty 0 = "0" ∧ pretty 1 = "1" ∧
    ∀ σ : Resource → Provisioned,
      ((2 ≤ length (domainValidationOptions (σ certificate)))%nat →
       ∀ i f, i = 0 ∨ i = 1 →
         ∃ o, domainValidationOptions (σ certificate) !! Z.to_nat i = Some o ∧
              resolve σ (DomainValidationOptions_Index certificate i f)
              = Some (Elem (validationField f o))) ∧
      ((length (domainValidationOptions (σ certificate)) < 2)%nat →
       ∀ f, resolve σ (DomainValidationOptions_Index certificate 1 f) = None).
Proof.
  intros Hok. destruct (run_complete _ _ _ _ _ Hok) as [a Ha].
  destruct (complete_elem _ _ _ _ _ _ Ha) as (_ & Hzone & _ & Hcert & _).
  exists (domainZone a), (certificate a).
  split; [exact Hzone|]. split; [exact Hcert|]. split.
  { rewrite (declarations_complete _ _ _ _ _ _ Ha). unfold completeDeclarations.
    rewrite !List.filter_app, filter_objects by done. reflexivity. }
  split; [reflexivity|]. split; [reflexivity|].
  intros σ. split.
  - intros Hlen i f Hi.
    assert (Z.to_nat i < length (domainValidationOptions (σ (certificate a))))%nat
      as Hlt by (destruct Hi as [-> | ->]; simpl; lia).
    apply lookup_lt_is_Some_2 in Hlt as [o Ho]. exists o. split; [exact Ho|].
    simpl. unfold Index. rewrite decide_True by (destruct Hi as [-> | ->]; lia).
    by rewrite Ho.
  - intros Hlen f. simpl. unfold Index. rewrite decide_True by lia.
    rewrite (lookup_ge_None_2 _ (Z.to_nat 1)); [done|]. simpl. lia.
Qed.

Lemma two_validation_records_witness :
  okRun.1 = None ∧
  ∃ zone certificate,
    LookupZone {| LookupZoneArgs.Name := Some "stratuslabs.net" |} (inr zone)
      ∈ events okRun.2 ∧
    NewResource (certificateDecl stratusLabs dev stratuslabsNet) (inr certificate)
      ∈ events okRun.2 ∧
    List.filter is_cname (declarations okRun.2)
    = map (λ i : Z,
        Route53Record ("stratusLabs" +:+ "Cname" +:+ pretty i)
          {| RecordArgs.ZoneId := String (LookupZoneResult.Id zone);
             RecordArgs.Name :=
               DomainValidationOptions_Index certificate i ResourceRecordName;
             RecordArgs.Type_ := String "CNAME";
             RecordArgs.Ttl := Some 60;
             RecordArgs.Records :=
               [DomainValidationOptions_Index certificate i ResourceRecordValue];
             RecordArgs.Aliases := [] |}) [0; 1] ∧
    pretty 0 = "0" ∧ pretty 1 = "1" ∧
    ∀ σ : Resource → Provisioned,
      ((2 ≤ length (domainValidationOptions (σ certificate)))%nat →
       ∀ i f, i = 0 ∨ i = 1 →
         ∃ o, domainValidationOptions (σ certificate) !! Z.to_nat i = Some o ∧
              resolve σ (DomainValidationOptions_Index certificate i f)
              = Some (Elem (validationField f o))) ∧
      ((length (domainValidationOptions (σ certificate)) < 2)%nat →
       ∀ f, resolve σ (DomainValidationOptions_Index certificate 1 f) = None).
Proof.
  split; [reflexivity|].
  apply (two_validation_records okEngine stratusLabs dev wwwSite stratuslabsNet).
  reflexivity.
Defined.

(** The two cases on concrete certificates: with two validation options
    record 1 resolves to the second option's name, with one it does not
    resolve. *)
Example resolve_record_1_of_two :
  resolve twoOptions (DomainValidationOptions_Index (Res 6) 1 ResourceRecordName)
  = Some "_b.www.stratuslabs.net.".
Proof. reflexivity. Qed.

Example resolve_record_1_of_one :
  resolve oneOption (DomainValidationOptions_Index (Res 6) 1 ResourceRecordName)
  = None.
Proof. reflexivity. Qed.

(** C6: in a run without error exactly four records with alias targets are
    declared: types A and AAAA, each for the bare domain and for
    [www.<domain>]; every one is in the zone that the lookup returned and has
    a single alias, targeting the domain name and the hosted zone id of the
    distribution the run created, with target health evaluated. *)
Theorem four_alias_records engine project environment site domain :
  (run engine project environment site domain).1 = None →
  ∃ zone bucket certificate originAccessId cloudFrontDist,
    LookupZone {| LookupZoneArgs.Name := Some (Domain.name domain) |} (inr zone)
      ∈ events (run engine project environment site domain).2 ∧
    NewResource (distributionDecl project environment domain
                bucket certificate originAccessId) (inr cloudFrontDist)
      ∈ events (run engine project environment site domain).2 ∧
    List.filter is_alias
      (declarations (run engine project environment site domain).2)
    = map (λ '(logicalName, name, type),
        Route53Record logicalName
          {| RecordArgs.ZoneId := String (LookupZoneResult.Id zone);
             RecordArgs.Name := String name;
             RecordArgs.Type_ := String type;
             RecordArgs.Ttl := None;
             RecordArgs.Records := [];
             RecordArgs.Aliases :=
               [ {| RecordAliasArgs.Name := Out cloudFrontDist DomainName;
                    RecordAliasArgs.ZoneId := Out cloudFrontDist HostedZoneId;
                    RecordAliasArgs.EvaluateTargetHealth := true |} ] |})
        [ (Project.name project +:+ "A", Domain.name domain, "A");
          ("www" +:+ Project.name project +:+ "A", "www." +:+ Domain.name domain, "A");
          (Project.name project +:+ "AAAA", Domain.name domain, "AAAA");
          ("www" +:+ Project.name project +:+ "AAAA", "www." +:+ Domain.name domain,
           "AAAA") ] ∧
    omap (λ d, match d with
               | Route53Record _ args =>
                   Some (RecordArgs.Type_ args, RecordArgs.Name args)
               | _ => None
               end)
      (List.filter is_alias
         (declarations (run engine project environment site domain).2))
    ≡ₚ [ (String "A", String (Domain.name domain));
         (String "AAAA", String (Domain.name domain));
         (String "A", String ("www." +:+ Domain.name domain));
         (String "AAAA", String ("www." +:+ Domain.name domain)) ].
Proof.
  intros Hok. destruct (run_complete _ _ _ _ _ Hok) as [a Ha].
  destruct (complete_elem _ _ _ _ _ _ Ha) as (_ & Hzone & _ & _ & _ & Hdist).
  exists (domainZone a), (bucket a), (certificate a), (originAccessId a),
    (cloudFrontDist a).
  split; [exact Hzone|]. split; [exact Hdist|].
  assert (List.filter is_alias
            (declarations (run engine project environment site domain).2)
          = [ apexRecordDecl project domain (domainZone a) "A" (cloudFrontDist a);
              wwwRecordDecl project domain (domainZone a) "A" (cloudFrontDist a);
              apexRecordDecl project domain (domainZone a) "AAAA" (cloudFrontDist a);
              wwwRecordDecl project domain (domainZone a) "AAAA" (cloudFrontDist a) ])
    as ->.
  { rewrite (declarations_complete _ _ _ _ _ _ Ha). unfold completeDeclarations.
    rewrite !List.filter_app, filter_objects by done. reflexivity. }
  split; [reflexivity|].
  cbn [omap list_omap apexRecordDecl wwwRecordDecl apexRecordArgs wwwRecordArgs
       RecordArgs.Type_ RecordArgs.Name].
  apply perm_skip, perm_swap.
Qed.

Lemma four_alias_records_witness :
  okRun.1 = None ∧
    ∃ zone bucket certificate originAccessId cloudFrontDist,
    LookupZone {| LookupZoneArgs.Name := Some (Domain.name stratuslabsNet) |} (inr zone)
      ∈ events okRun.2 ∧
    NewResource (distributionDecl stratusLabs dev stratuslabsNet
                bucket certificate originAccessId) (inr cloudFrontDist)
      ∈ events okRun.2 ∧
    List.filter is_alias
      (declarations okRun.2)
    = map (λ '(logicalName, name, type),
        Route53Record logicalName
          {| RecordArgs.ZoneId := String (LookupZoneResult.Id zone);
             RecordArgs.Name := String name;
             RecordArgs.Type_ := String type;
             RecordArgs.Ttl := None;
             RecordArgs.Records := [];
             RecordArgs.Aliases :=
               [ {| RecordAliasArgs.Name := Out cloudFrontDist DomainName;
                    RecordAliasArgs.ZoneId := Out cloudFrontDist HostedZoneId;
                    RecordAliasArgs.EvaluateTargetHealth := true |} ] |})
        [ (Project.name stratusLabs +:+ "A", Domain.name stratuslabsNet, "A");
          ("www" +:+ Project.name stratusLabs +:+ "A", "www." +:+ Domain.name stratuslabsNet, "A");
          (Project.name stratusLabs +:+ "AAAA", Domain.name stratuslabsNet, "AAAA");
          ("www" +:+ Project.name stratusLabs +:+ "AAAA", "www." +:+ Domain.name stratuslabsNet,
           "AAAA") ] ∧
    omap (λ d, match d with
               | Route53Record _ args =>
                   Some (RecordArgs.Type_ args, RecordArgs.Name args)
               | _ => None
               end)
      (List.filter is_alias
         (declarations okRun.2))
    ≡ₚ [ (String "A", String (Domain.name stratuslabsNet));
         (String "AAAA", String (Domain.name stratuslabsNet));
         (String "A", String ("www." +:+ Domain.name stratuslabsNet));
         (String "AAAA", String ("www." +:+ Domain.name stratuslabsNet)) ].
Proof.
  split; [reflexivity|].
  apply (four_alias_records okEngine stratusLabs dev wwwSite stratuslabsNet).
  reflexivity.
Defined.

(** C9: a run without error ends with exactly two stack outputs:
    [bucketName], bound to the identifier of the bucket the run created, and
    [cloudFrontDist], bound to the identifier of the distribution the run
    created. *)
Theorem two_stack_outputs engine project environment site domain :
  (run engine project environment site domain).1 = None →
  ∃ bucket certificate originAccessId cloudFrontDist,
    NewResource (bucketDecl project environment domain) (inr bucket)
      ∈ events (run engine project environment site domain).2 ∧
    NewResource (distributionDecl project environment domain
                bucket certificate originAccessId) (inr cloudFrontDist)
      ∈ events (run engine project environment site domain).2 ∧
    exports (run engine project environment site domain).2
    = {[ "bucketName" := ID bucket; "cloudFrontDist" := ID cloudFrontDist ]} ∧
    exports (run engine project environment site domain).2 !! "bucketName"
    = Some (ID bucket) ∧
    exports (run engine project environment site domain).2 !! "cloudFrontDist"
    = Some (ID cloudFrontDist) ∧
    size (exports (run engine project environment site domain).2) = 2%nat.
Proof.
  intros Hok. destruct (run_complete _ _ _ _ _ Hok) as [a Ha].
  destruct (complete_elem _ _ _ _ _ _ Ha) as (_ & _ & Hbucket & _ & _ & Hdist).
  destruct Ha as (_ & _ & Hex).
  exists (bucket a), (certificate a), (originAccessId a), (cloudFrontDist a).
  split; [exact Hbucket|]. split; [exact Hdist|]. split; [exact Hex|].
  rewrite Hex. split; [|split].
  - by rewrite lookup_insert_eq.
  - by rewrite lookup_insert_ne, lookup_singleton_eq.
  - rewrite map_size_insert_None by by rewrite lookup_singleton_ne.
    by rewrite map_size_singleton.
Qed.

Lemma two_stack_outputs_witness :
  okRun.1 = None ∧
    ∃ bucket certificate originAccessId cloudFrontDist,
    NewResource (bucketDecl stratusLabs dev stratuslabsNet) (inr bucket)
      ∈ events okRun.2 ∧
    NewResource (distributionDecl stratusLabs dev stratuslabsNet
                bucket certificate originAccessId) (inr cloudFrontDist)
      ∈ events okRun.2 ∧
    exports okRun.2
    = {[ "bucketName" := ID bucket; "cloudFrontDist" := ID cloudFrontDist ]} ∧
    exports okRun.2 !! "bucketName"
    = Some (ID bucket) ∧
    exports okRun.2 !! "cloudFrontDist"
    = Some (ID cloudFrontDist) ∧
    size (exports okRun.2) = 2%nat.
Proof.
  split; [reflexivity|].
  apply (two_stack_outputs okEngine stratusLabs dev wwwSite stratuslabsNet).
  reflexivity.
Defined.

(** ** The outcome of every run *)

Section Outcome.
Variables (engine : Engine) (project : Project.t) (environment : Environment.t)
          (site : Site.t) (domain : Domain.t).

Local Abbreviation expected := (expected project environment site domain).
Local Abbreviation ordered := (ordered project environment site domain).
Local Abbreviation begun := (begun project environment site domain).
Local Abbreviation outcome := (outcome project environment site domain).

Lemma ordered_nil : ordered [].
Proof. intros i d r Hi. by rewrite lookup_nil in Hi. Qed.

Lemma ordered_snoc l d a :
  ordered l → expected l d → ordered (l ++ [NewResource d a]).
Proof.
  intros Hl Hd i d' r' Hi.
  destruct (decide (i < length l)%nat) as [Hlt|Hge].
  - rewrite lookup_app_l in Hi by done. rewrite take_app_le by lia. by eapply Hl.
  - rewrite lookup_app_r in Hi by lia.
    apply list_lookup_singleton_Some in Hi as [Hi Heq].
    assert (i = length l) as -> by lia. injection Heq as <- <-.
    by rewrite take_app_length.
Qed.

Lemma ordered_snoc_other l ev :
  ordered l → declaration_of ev = None → ordered (l ++ [ev]).
Proof.
  intros Hl Hev i d r Hi.
  destruct (decide (i < length l)%nat) as [Hlt|Hge].
  - rewrite lookup_app_l in Hi by done. rewrite take_app_le by lia. by eapply Hl.
  - rewrite lookup_app_r in Hi by lia.
    apply list_lookup_singleton_Some in Hi as [_ Heq]. by subst ev.
Qed.

Lemma advance_ReadDir path (k : list DirEntry.t → Run (option Error)) ctx :
  ordered (events ctx) → exports ctx = ∅ →
  (∀ files, begun (events ctx ++ [ReadDir path (inr files)])) →
  (∀ files, ordered (events ctx ++ [ReadDir path (inr files)]) →
            wp (k files) outcome (record (ReadDir path (inr files)) ctx)) →
  wp (x <-? os_ReadDir engine path ;; k x) outcome ctx.
Proof.
  intros Ho Hex Hb Hk. apply wp_try_ReadDir.
  - intros e. split; [by apply ordered_snoc_other|]. split; [done|].
    exists (events ctx), (ReadDir path (inr [])). split; [done|apply Hb].
  - intros files. apply Hk. by apply ordered_snoc_other.
Qed.

Lemma advance_LookupZone args (k : LookupZoneResult.t → Run (option Error)) ctx :
  ordered (events ctx) → exports ctx = ∅ →
  (∀ zone, begun (events ctx ++ [LookupZone args (inr zone)])) →
  (∀ zone, ordered (events ctx ++ [LookupZone args (inr zone)]) →
           wp (k zone) outcome (record (LookupZone args (inr zone)) ctx)) →
  wp (x <-? route53_LookupZone engine args ;; k x) outcome ctx.
Proof.
  intros Ho Hex Hb Hk. apply wp_try_LookupZone.
  - intros e. split; [by apply ordered_snoc_other|]. split; [done|].
    exists (events ctx), (LookupZone args (inr {| LookupZoneResult.Id := "" |})).
    split; [done|apply Hb].
  - intros zone. apply Hk. by apply ordered_snoc_other.
Qed.

Lemma outcome_error ctx d e :
  ordered (events ctx) → exports ctx = ∅ → expected (events ctx) d →
  begun (events ctx ++ [NewResource d (inr (Res 0))]) →
  outcome (Some e) (record (NewResource d (inl e)) ctx).
Proof.
  intros Ho Hex Hd Hb. split; [by apply ordered_snoc|]. split; [done|].
  by exists (events ctx), (NewResource d (inr (Res 0))).
Qed.

Lemma advance_register d (k : Resource → Run (option Error)) ctx :
  ordered (events ctx) → exports ctx = ∅ → expected (events ctx) d →
  (∀ r, begun (events ctx ++ [NewResource d (inr r)])) →
  (∀ r, ordered (events ctx ++ [NewResource d (inr r)]) →
        wp (k r) outcome (record (NewResource d (inr r)) ctx)) →
  wp (x <-? register engine d ;; k x) outcome ctx.
Proof.
  intros Ho Hex Hd Hb Hk. apply wp_try_register.
  - intros e. by apply outcome_error.
  - intros r. apply Hk. by apply ordered_snoc.
Qed.

(** The beginning of a complete log, from the answers so far. *)
Ltac begin_with a :=
  exists a; unfold answers; split;
  [ cbn -[length replicate]; by rewrite ?length_replicate
  | eexists; unfold completeLog; cbn -[String.append pretty];
    rewrite <- ?app_assoc; cbn [app]; reflexivity ].

Lemma stack_outcome :
  wp (stack engine project environment site domain) outcome
     {| events := []; exports := ∅ |}.
Proof.
  pose (o := Res 0). pose (z := {| LookupZoneResult.Id := "" |}).
  unfold stack. cbv zeta.
  apply advance_ReadDir; [apply ordered_nil|done| |].
  { intros files.
    begin_with (answers files z o o (replicate (length files) o) o o o o o o o o o o). }
  intros files Ho. advance.
  apply advance_LookupZone; [exact Ho|done| |].
  { intros zone.
    begin_with (answers files zone o o (replicate (length files) o) o o o o o o o o o o). }
  clear Ho. intros zone Ho. advance.
  apply advance_register; [exact Ho|done|reflexivity| |].
  { intros bucket.
    begin_with (answers files zone bucket o (replicate (length files) o)
                  o o o o o o o o o o). }
  clear Ho. intros bucket Ho. advance.
  apply advance_register; [exact Ho|done| | |].
  { exists bucket. split; [find_elem|reflexivity]. }
  { intros pab.
    begin_with (answers files zone bucket pab (replicate (length files) o)
                  o o o o o o o o o o). }
  clear Ho. intros pab Ho. advance.
  (* the upload loop *)
  match type of Ho with ordered ?l => set (l4 := l) in * end.
  apply wp_check.
  apply (wp_range (λ done ctx', ∃ rs,
    length rs = length done ∧
    events ctx' = l4 ++ objectEvents project environment site bucket done rs ∧
    exports ctx' = ∅ ∧ ordered (events ctx'))).
  { exists []. cbn [objectEvents zip_with length events exports]. by rewrite app_nil_r. }
  { intros done file rest ctx' Hfiles (rs & Hlen & Hev & Hex & Ho').
    assert (expected (events ctx')
              (objectDecl project environment site bucket file)) as Hd.
    { eapply expected_object; [| |done]; rewrite Hev; subst l4; find_elem. }
    assert (∀ r, begun (events ctx' ++
              [NewResource (objectDecl project environment site bucket file) (inr r)]))
      as Hb.
    { intros r. rewrite Hev.
      exists (answers files zone bucket pab (rs ++ r :: replicate (length rest) o)
                o o o o o o o o o o).
      unfold answers. split.
      - cbn -[length replicate]. rewrite Hfiles, !length_app. simpl.
        rewrite length_replicate. lia.
      - eexists. unfold completeLog, objectEvents.
        cbn -[String.append pretty zip_with replicate].
        rewrite Hfiles at 2. rewrite zip_with_app by done.
        subst l4. cbn [app zip_with]. rewrite <- ?app_assoc. cbn [app].
        reflexivity. }
    apply wp_try_register.
    - intros e. by apply outcome_error.
    - intros r. apply wp_ret. exists (rs ++ [r]).
      unfold record; cbn [events exports].
      split; [|split; [|split]]; [|..|done|by apply ordered_snoc].
      + by rewrite !length_app, Hlen.
      + rewrite Hev. unfold objectEvents. rewrite zip_with_app by done.
        by rewrite <- app_assoc. }
  clear Ho. intros [l ex] (objs & Hlen & Hev & Hex & Ho). simpl in Hev, Hex, Ho.
  subst l ex l4.
  (* the certificate and its two validation records *)
  apply advance_register; [exact Ho|done|reflexivity| |].
  { intros cert. begin_with (answers files zone bucket pab objs cert o o o o o o o o o). }
  clear Ho. intros cert Ho. advance.
  rewrite for_upto_0_1.
  apply wp_check_assoc, wp_check_try.
  apply advance_register; [exact Ho|done| | |].
  { exists zone. split; [find_elem|]. left. exists cert, 0.
    split; [find_elem|]. split; [by left|reflexivity]. }
  { intros c0. begin_with (answers files zone bucket pab objs cert c0 o o o o o o o o). }
  clear Ho. intros c0 Ho. advance.
  apply wp_check_ret, wp_check_assoc, wp_check_try.
  apply advance_register; [exact Ho|done| | |].
  { exists zone. split; [find_elem|]. left. exists cert, 1.
    split; [find_elem|]. split; [by right|reflexivity]. }
  { intros c1. begin_with (answers files zone bucket pab objs cert c0 c1 o o o o o o o). }
  clear Ho. intros c1 Ho. advance.
  apply wp_check_ret, wp_check_ret.
  (* the origin access identity and the distribution *)
  apply advance_register; [exact Ho|done|reflexivity| |].
  { intros oai.
    begin_with (answers files zone bucket pab objs cert c0 c1 oai o o o o o o). }
  clear Ho. intros oai Ho. advance.
  apply advance_register; [exact Ho|done| | |].
  { exists bucket, cert, oai. repeat split; find_elem. }
  { intros dist.
    begin_with (answers files zone bucket pab objs cert c0 c1 oai dist o o o o o). }
  clear Ho. intros dist Ho. advance.
  (* the four alias records *)
  rewrite range_2.
  apply wp_check_assoc, wp_check_try.
  apply advance_register; [exact Ho|done| | |].
  { exists zone. split; [find_elem|]. right. exists bucket, cert, oai, dist, "A".
    split; [find_elem|]. split; [by left|by left]. }
  { intros a1.
    begin_with (answers files zone bucket pab objs cert c0 c1 oai dist a1 o o o o). }
  clear Ho. intros a1 Ho. advance.
  apply wp_check_try.
  apply advance_register; [exact Ho|done| | |].
  { exists zone. split; [find_elem|]. right. exists bucket, cert, oai, dist, "A".
    split; [find_elem|]. split; [by left|by right]. }
  { intros a2.
    begin_with (answers files zone bucket pab objs cert c0 c1 oai dist a1 a2 o o o). }
  clear Ho. intros a2 Ho. advance.
  apply wp_check_ret, wp_check_assoc, wp_check_try.
  apply advance_register; [exact Ho|done| | |].
  { exists zone. split; [find_elem|]. right. exists bucket, cert, oai, dist, "AAAA".
    split; [find_elem|]. split; [by right|by left]. }
  { intros a3.
    begin_with (answers files zone bucket pab objs cert c0 c1 oai dist a1 a2 a3 o o). }
  clear Ho. intros a3 Ho. advance.
  apply wp_check_try.
  apply advance_register; [exact Ho|done| | |].
  { exists zone. split; [find_elem|]. right. exists bucket, cert, oai, dist, "AAAA".
    split; [find_elem|]. split; [by right|by right]. }
  { intros a4.
    begin_with (answers files zone bucket pab objs cert c0 c1 oai dist a1 a2 a3 a4 o). }
  clear Ho. intros a4 Ho. advance.
  apply wp_check_ret, wp_check_ret.
  (* the bucket policy and the exports *)
  apply advance_register; [exact Ho|done| | |].
  { exists bucket, oai. repeat split; find_elem. }
  { intros pol.
    begin_with (answers files zone bucket pab objs cert c0 c1 oai dist a1 a2 a3 a4 pol). }
  clear Ho. intros pol Ho. advance.
  apply wp_Export, wp_Export, wp_ret. cbn [events exports].
  split; [exact Ho|].
  exists (answers files zone bucket pab objs cert c0 c1 oai dist a1 a2 a3 a4 pol).
  split; [exact Hlen|]. split; [|apply exports_two].
  unfold completeLog. cbn -[String.append pretty].
  by rewrite <- !app_assoc.
Qed.
End Outcome.

(** ** What every run has in common *)

Lemma run_outcome engine project environment site domain :
  outcome project environment site domain
    (run engine project environment site domain).1
    (run engine project environment site domain).2.
Proof. apply stack_outcome. Qed.

Lemma declaration_of_failed ev e : declaration_of (failed ev e) = declaration_of ev.
Proof. by destruct ev. Qed.

Lemma error_of_failed ev e : error_of (failed ev e) = Some e.
Proof. by destruct ev. Qed.

Lemma elem_of_objectEvents project environment site bucket files objects ev :
  ev ∈ objectEvents project environment site bucket files objects →
  ∃ file r, file ∈ files ∧
    ev = NewResource (objectDecl project environment site bucket file) (inr r).
Proof.
  unfold objectEvents. revert objects.
  induction files as [|file files IH]; intros [|r objects] Hin; simpl in Hin;
    try by apply elem_of_nil in Hin.
  apply elem_of_cons in Hin as [->|Hin].
  - exists file, r. split; [apply list_elem_of_here|done].
  - destruct (IH _ Hin) as (file' & r' & Hfile & ->).
    exists file', r'. split; [by apply list_elem_of_further|done].
Qed.

(** The steps of a complete log, one by one. *)
Lemma elem_of_completeLog project environment site domain a ev :
  ev ∈ completeLog project environment site domain a →
  ev = ReadDir (readDirPath site) (inr (files a)) ∨
  ev = LookupZone (lookupZoneArgs domain) (inr (domainZone a)) ∨
  ∃ d r, ev = NewResource d (inr r) ∧
    ((d = bucketDecl project environment domain ∧ r = bucket a) ∨
     (d = certificateDecl project environment domain ∧ r = certificate a) ∨
     (d = originAccessIdentityDecl project ∧ r = originAccessId a) ∨
     (d = distributionDecl project environment domain
            (bucket a) (certificate a) (originAccessId a) ∧ r = cloudFrontDist a) ∨
     kind_of d = KBucketPublicAccessBlock ∨ kind_of d = KBucketObject ∨
     kind_of d = KRecord ∨ kind_of d = KBucketPolicy).
Proof.
  unfold completeLog. rewrite !elem_of_app, !elem_of_cons, elem_of_nil.
  intros [Hin|[Hin|Hin]].
  - destruct Hin as [->|[->|[->|[->|[]]]]]; [by left|by right; left|..];
      right; right; eexists _, _; (split; [reflexivity|]); [by left|].
    by do 4 right; left.
  - apply elem_of_objectEvents in Hin as (file & r & _ & ->).
    right; right. eexists _, _. split; [reflexivity|]. by do 5 right; left.
  - destruct Hin as [->|[->|[->|[->|[->|[->|[->|[->|[->|[->|[]]]]]]]]]]];
      right; right; eexists _, _; (split; [reflexivity|]).
    + by right; left.
    + by do 6 right; left.
    + by do 6 right; left.
    + by do 2 right; left.
    + by do 3 right; left.
    + by do 6 right; left.
    + by do 6 right; left.
    + by do 6 right; left.
    + by do 6 right; left.
    + by do 7 right.
Qed.

Lemma completeLog_clean project environment site domain a :
  clean (completeLog project environment site domain a).
Proof.
  apply Forall_forall. intros ev Hin.
  apply elem_of_completeLog in Hin as [->|[->|(d & r & -> & _)]]; done.
Qed.

Lemma omap_completeLog project environment site domain a :
  length (objects a) = length (files a) →
  omap declaration_of (completeLog project environment site domain a)
  = completeDeclarations project environment site domain a.
Proof.
  intros Hlen. unfold completeLog, completeDeclarations.
  rewrite !omap_app. by rewrite omap_objectEvents.
Qed.

Lemma prefix_omap {A B} (f : A → option B) (l1 l2 : list A) :
  l1 `prefix_of` l2 → omap f l1 `prefix_of` omap f l2.
Proof. intros [k ->]. rewrite omap_app. by eexists. Qed.

Lemma prefix_filter {A} (P : A → bool) (l1 l2 : list A) :
  l1 `prefix_of` l2 → List.filter P l1 `prefix_of` List.filter P l2.
Proof. intros [k ->]. rewrite List.filter_app. by eexists. Qed.

Lemma prefix_map {A B} (f : A → B) (l1 l2 : list A) :
  l1 `prefix_of` l2 → map f l1 `prefix_of` map f l2.
Proof. intros [k ->]. rewrite List.map_app. by eexists. Qed.

Lemma prefix_is_take {A} (l1 l2 : list A) :
  l1 `prefix_of` l2 → l1 = take (length l1) l2.
Proof. intros [k ->]. by rewrite take_app_length. Qed.

(** Every run follows a complete log: its successful steps are steps of that
    log, its declarations are the first ones of that log's, and without
    error it is that log. *)
Lemma run_plan engine project environment site domain :
  ∃ a, length (objects a) = length (files a) ∧
    (∀ ev, ev ∈ events (run engine project environment site domain).2 →
           error_of ev = None →
           ev ∈ completeLog project environment site domain a) ∧
    declarations (run engine project environment site domain).2
      `prefix_of` completeDeclarations project environment site domain a ∧
    ((run engine project environment site domain).1 = None →
     events (run engine project environment site domain).2
     = completeLog project environment site domain a).
Proof.
  pose proof (run_outcome engine project environment site domain) as [_ Hout].
  unfold declarations.
  destruct (run engine project environment site domain) as [[e|] ctx]; simpl in *.
  - destruct Hout as (_ & h & ev & Hev & a & Hlen & Hpre).
    exists a. split; [done|]. split; [|split; [|done]].
    + intros ev' Hin Hok. rewrite Hev in Hin.
      apply elem_of_app in Hin as [Hin|Hin].
      * destruct Hpre as [k ->]. rewrite !elem_of_app. by left; left.
      * apply list_elem_of_singleton in Hin as ->.
        by rewrite error_of_failed in Hok.
    + rewrite <- (omap_completeLog _ _ _ _ _ Hlen).
      apply (prefix_omap declaration_of) in Hpre as Hpre'.
      rewrite Hev. rewrite omap_app in Hpre' |- *. simpl in *.
      by rewrite declaration_of_failed.
  - destruct Hout as (a & Hlen & Hev & _).
    exists a. split; [done|]. split; [|split; [|done]].
    + intros ev Hin _. by rewrite <- Hev.
    + rewrite Hev, omap_completeLog by done. done.
Qed.

(** ** More of what [main] does *)

(** X1: in every run the declarations are made in one fixed order: the bucket,
    its public access block, one object per listed entry in the order of the
    listing, the certificate, the validation records 0 and 1, the origin
    access identity, the distribution, the alias records A and AAAA (each
    for the bare domain, then for [www]), and the bucket policy.  A run
    makes the first declarations of this sequence, built from the answers it
    received, and all of them when it has no error. *)
Theorem declarations_follow_the_plan engine project environment site domain :
  ∃ a, length (objects a) = length (files a) ∧
    (∀ ev, ev ∈ events (run engine project environment site domain).2 →
           error_of ev = None →
           ev ∈ completeLog project environment site domain a) ∧
    declarations (run engine project environment site domain).2
      `prefix_of` completeDeclarations project environment site domain a ∧
    ((run engine project environment site domain).1 = None →
     declarations (run engine project environment site domain).2
     = completeDeclarations project environment site domain a).
Proof.
  destruct (run_plan engine project environment site domain)
    as (a & Hlen & Hsub & Hpre & Hok).
  exists a. split; [done|]. split; [done|]. split; [done|].
  intros Hnone. unfold declarations. rewrite (Hok Hnone).
  by apply omap_completeLog.
Qed.

(** The listing and the bucket of a run are those of the complete log it
    follows. *)
Lemma plan_files project environment site domain a path fs :
  ReadDir path (inr fs) ∈ completeLog project environment site domain a →
  fs = files a.
Proof.
  intros Hin. apply elem_of_completeLog in Hin as [Heq|[Heq|(d & r & Heq & _)]];
    by simplify_eq.
Qed.

Lemma plan_bucket project environment site domain a name args b :
  NewResource (S3Bucket name args) (inr b)
    ∈ completeLog project environment site domain a →
  b = bucket a.
Proof.
  intros Hin. apply elem_of_completeLog in Hin as [Heq|[Heq|(d & r & Heq & Hd)]];
    simplify_eq.
  destruct Hd as [[_ ->]|[[? _]|[[? _]|[[? _]|[?|[?|[?|?]]]]]]]; done.
Qed.

(** X2: uploads go in the order of the listing and stop at the first refusal: in
    every run the object declarations are those of the first [k] entries of
    the listing, and of all entries when the run has no error. *)
Theorem uploads_follow_the_listing engine project environment site domain
    files bucket :
  ReadDir (Site.dir site +:+ "/") (inr files)
    ∈ events (run engine project environment site domain).2 →
  NewResource (bucketDecl project environment domain) (inr bucket)
    ∈ events (run engine project environment site domain).2 →
  ∃ k, (k ≤ length files)%nat ∧
    List.filter is_object
      (declarations (run engine project environment site domain).2)
    = map (objectDecl project environment site bucket) (take k files) ∧
    ((run engine project environment site domain).1 = None → k = length files).
Proof.
  intros Hdir Hbucket.
  destruct (run_plan engine project environment site domain)
    as (a & Hlen & Hsub & Hpre & Hok).
  apply Hsub in Hdir; [|done]. apply Hsub in Hbucket; [|done].
  apply plan_files in Hdir as ->. apply plan_bucket in Hbucket as ->.
  assert (List.filter is_object
            (completeDeclarations project environment site domain a)
          = map (objectDecl project environment site ((bucket a)))
              ((files a))) as Hall.
  { unfold completeDeclarations.
    rewrite !List.filter_app, filter_all_objects. simpl. by rewrite app_nil_r. }
  apply (prefix_filter is_object) in Hpre as Hobj. rewrite Hall in Hobj.
  exists (length (List.filter is_object
            (declarations (run engine project environment site domain).2))).
  split; [|split].
  - apply prefix_length in Hobj. by rewrite length_map in Hobj.
  - rewrite <- List.firstn_map. by apply prefix_is_take.
  - intros Hnone. unfold declarations. rewrite (Hok Hnone).
    rewrite omap_completeLog by done. by rewrite Hall, length_map.
Qed.

Lemma uploads_follow_the_listing_witness :
  (ReadDir "./www/_site/" (inr [ {| DirEntry.Name := "index.html"; DirEntry.IsDir := false |};
                                 {| DirEntry.Name := "error.html"; DirEntry.IsDir := false |} ])
     ∈ events noUploadRun.2 ∧
   NewResource (bucketDecl stratusLabs dev stratuslabsNet) (inr (Res 2))
     ∈ events noUploadRun.2) ∧
  ∃ k, (k ≤ 2)%nat ∧
    List.filter is_object (declarations noUploadRun.2)
    = map (objectDecl stratusLabs dev wwwSite (Res 2))
        (take k [ {| DirEntry.Name := "index.html"; DirEntry.IsDir := false |};
                  {| DirEntry.Name := "error.html"; DirEntry.IsDir := false |} ]) ∧
    (noUploadRun.1 = None → k = 2%nat).
Proof.
  assert (ReadDir "./www/_site/"
            (inr [ {| DirEntry.Name := "index.html"; DirEntry.IsDir := false |};
                   {| DirEntry.Name := "error.html"; DirEntry.IsDir := false |} ])
            ∈ events noUploadRun.2) as Hdir
    by (apply (list_elem_of_lookup_2 _ 0%nat); vm_compute; reflexivity).
  assert (NewResource (bucketDecl stratusLabs dev stratuslabsNet) (inr (Res 2))
            ∈ events noUploadRun.2) as Hbucket
    by (apply (list_elem_of_lookup_2 _ 2%nat); vm_compute; reflexivity).
  split; [by split|].
  exact (uploads_follow_the_listing noUploadEngine stratusLabs dev wwwSite
           stratuslabsNet _ _ Hdir Hbucket).
Defined.

(** X3: the bucket, its public access block, the certificate, the origin access
    identity, the distribution and the bucket policy are each declared at
    most once in a run. *)
Theorem declared_at_most_once engine project environment site domain k :
  k ≠ KBucketObject → k ≠ KRecord →
  (length (List.filter (is_kind k)
             (declarations (run engine project environment site domain).2))
   ≤ 1)%nat.
Proof.
  intros Hobject Hrecord.
  destruct (run_plan engine project environment site domain)
    as (a & _ & _ & Hpre & _).
  apply (prefix_filter (is_kind k)), prefix_length in Hpre.
  etrans; [exact Hpre|]. unfold completeDeclarations.
  rewrite !List.filter_app.
  rewrite filter_objects by (intros file; by destruct k).
  by destruct k.
Qed.

Lemma declared_at_most_once_witness :
  (KBucket ≠ KBucketObject ∧ KBucket ≠ KRecord) ∧
  (length (List.filter (is_kind KBucket) (declarations okRun.2)) ≤ 1)%nat.
Proof.
  split; [done|].
  apply (declared_at_most_once okEngine stratusLabs dev wwwSite stratuslabsNet);
    done.
Defined.

(** X4: no resource is declared before the site directory was read and the zone
    was found: a run with any declaration starts with these two steps, both
    successful. *)
Theorem declarations_wait_for_listing_and_zone engine project environment site
    domain d r :
  NewResource d r ∈ events (run engine project environment site domain).2 →
  ∃ files zone,
    take 2 (events (run engine project environment site domain).2)
    = [ ReadDir (Site.dir site +:+ "/") (inr files);
        LookupZone {| LookupZoneArgs.Name := Some (Domain.name domain) |}
          (inr zone) ].
Proof.
  intros Hin.
  pose proof (run_outcome engine project environment site domain) as [_ Hout].
  destruct (run engine project environment site domain) as [[e|] ctx]; simpl in *.
  - destruct Hout as (_ & h & ev & Hev & a & _ & [k Hk]).
    rewrite Hev in Hin |- *. unfold completeLog in Hk.
    destruct h as [|x [|y h]]; simplify_eq/=.
    + by apply list_elem_of_singleton in Hin.
    + apply elem_of_cons in Hin as [?|Hin]; [done|].
      by apply list_elem_of_singleton in Hin.
    + by eexists _, _.
  - destruct Hout as (a & _ & -> & _). by eexists _, _.
Qed.

Lemma declarations_wait_for_listing_and_zone_witness :
  NewResource (bucketDecl stratusLabs dev stratuslabsNet) (inr (Res 2))
    ∈ events noUploadRun.2 ∧
  ∃ files zone,
    take 2 (events noUploadRun.2)
    = [ ReadDir ("./www/_site" +:+ "/") (inr files);
        LookupZone {| LookupZoneArgs.Name := Some "stratuslabs.net" |} (inr zone) ].
Proof.
  assert (NewResource (bucketDecl stratusLabs dev stratuslabsNet) (inr (Res 2))
            ∈ events noUploadRun.2) as Hbucket
    by (apply (list_elem_of_lookup_2 _ 2%nat); vm_compute; reflexivity).
  split; [exact Hbucket|].
  exact (declarations_wait_for_listing_and_zone noUploadEngine stratusLabs dev
           wwwSite stratuslabsNet _ _ Hbucket).
Defined.

(** X5: the stack outputs are written only after every step succeeded: a run
    that returns an error has exported nothing. *)
Theorem failed_run_exports_nothing engine project environment site domain e :
  (run engine project environment site domain).1 = Some e →
  exports (run engine project environment site domain).2 = ∅.
Proof.
  intros Herr.
  pose proof (run_outcome engine project environment site domain) as [_ Hout].
  rewrite Herr in Hout. by destruct Hout as [Hex _].
Qed.

Lemma failed_run_exports_nothing_witness :
  noCertificateRun.1 = Some (Err "LimitExceededException") ∧
  exports noCertificateRun.2 = ∅.
Proof.
  assert (noCertificateRun.1 = Some (Err "LimitExceededException")) as Herr
    by (vm_compute; reflexivity).
  split; [exact Herr|].
  exact (failed_run_exports_nothing noCertificateEngine stratusLabs dev wwwSite
           stratuslabsNet _ Herr).
Defined.

Lemma tagsResources_ToStringMap (m : gmap string string) :
  tagsResources (ToStringMap m) = [].
Proof.
  unfold tagsResources, inputsResources, ToStringMap. apply join_nil_2.
  rewrite !List.Forall_map. apply Forall_forall. intros [k v] Hin. simpl.
  apply elem_of_map_to_list in Hin. rewrite lookup_fmap in Hin.
  by apply fmap_Some in Hin as (s & _ & ->).
Qed.

Lemma created_before (l : list Event) i d h :
  NewResource d (inr h) ∈ take i l →
  ∃ j d', (j < i)%nat ∧ l !! j = Some (NewResource d' (inr h)).
Proof.
  intros Hin. apply list_elem_of_lookup in Hin as [j Hj].
  apply lookup_take_Some in Hj as [Hj Hlt]. by exists j, d.
Qed.

(** X6: a declaration only reads outputs of resources that earlier steps of the
    same run created: whenever the arguments of a declaration mention a
    resource, an earlier declaration was answered with it. *)
Theorem resources_are_created_before_use engine project environment site domain
    i d r h :
  events (run engine project environment site domain).2 !! i
    = Some (NewResource d r) →
  h ∈ resourcesOf d →
  ∃ j d', (j < i)%nat ∧
    events (run engine project environment site domain).2 !! j
    = Some (NewResource d' (inr h)).
Proof.
  intros Hi Hh.
  pose proof (run_outcome engine project environment site domain) as [Hord _].
  specialize (Hord i d r Hi).
  destruct d as [n a|n a|n a|n a|n a|n a|n a|n a]; simpl in Hord.
  - injection Hord as -> ->. unfold resourcesOf, bucketArgs in Hh.
    cbn -[tagsResources ToStringMap] in Hh.
    rewrite tagsResources_ToStringMap in Hh. by apply elem_of_nil in Hh.
  - destruct Hord as (bucket & Hb & Heq). injection Heq as -> ->.
    apply list_elem_of_singleton in Hh as ->. by eapply created_before.
  - destruct Hord as (fs & bucket & file & _ & _ & Hb & Heq). injection Heq as -> ->.
    unfold resourcesOf, bucketObjectArgs in Hh.
    cbn -[tagsResources ToStringMap] in Hh.
    rewrite tagsResources_ToStringMap in Hh.
    apply list_elem_of_singleton in Hh as ->. by eapply created_before.
  - injection Hord as -> ->. unfold resourcesOf, certificateArgs in Hh.
    cbn -[tagsResources ToStringMap] in Hh.
    rewrite tagsResources_ToStringMap in Hh. by apply elem_of_nil in Hh.
  - destruct Hord as (zone & _ & [(cert & k & Hc & _ & Heq)|
                                  (b & c & o & dist & rec & Hd & _ & [Heq|Heq])]);
      injection Heq as -> ->; cbn in Hh;
      repeat (apply elem_of_cons in Hh as [->|Hh]; [by eapply created_before|]);
      by apply elem_of_nil in Hh.
  - injection Hord as -> ->. by apply elem_of_nil in Hh.
  - destruct Hord as (bucket & cert & oai & Hb & Hc & Ho & Heq).
    injection Heq as -> ->. unfold resourcesOf, distributionArgs in Hh.
    cbn -[tagsResources ToStringMap] in Hh.
    rewrite tagsResources_ToStringMap in Hh.
    repeat (apply elem_of_cons in Hh as [->|Hh]; [by eapply created_before|]).
    by apply elem_of_nil in Hh.
  - destruct Hord as (bucket & oai & Hb & Ho & Heq). injection Heq as -> ->.
    cbn in Hh.
    repeat (apply elem_of_cons in Hh as [->|Hh]; [by eapply created_before|]).
    by apply elem_of_nil in Hh.
Qed.

Lemma resources_are_created_before_use_witness :
  (events okRun.2 !! 10%nat
   = Some (NewResource (distributionDecl stratusLabs dev stratuslabsNet
                          (Res 2) (Res 6) (Res 9)) (inr (Res 10))) ∧
   Res 9 ∈ resourcesOf (distributionDecl stratusLabs dev stratuslabsNet
                          (Res 2) (Res 6) (Res 9))) ∧
  ∃ j d', (j < 10)%nat ∧ events okRun.2 !! j = Some (NewResource d' (inr (Res 9))).
Proof.
  assert (events okRun.2 !! 10%nat
          = Some (NewResource (distributionDecl stratusLabs dev stratuslabsNet
                                 (Res 2) (Res 6) (Res 9)) (inr (Res 10)))) as Hi
    by (vm_compute; reflexivity).
  assert (Res 9 ∈ resourcesOf (distributionDecl stratusLabs dev stratuslabsNet
                                 (Res 2) (Res 6) (Res 9))) as Hh
    by (apply (list_elem_of_lookup_2 _ 2%nat); vm_compute; reflexivity).
  split; [by split|].
  exact (resources_are_created_before_use okEngine stratusLabs dev wwwSite
           stratuslabsNet _ _ _ _ Hi Hh).
Defined.

Lemma append_length (s1 s2 : string) :
  String.length (s1 +:+ s2) = (String.length s1 + String.length s2)%nat.
Proof. induction s1 as [|c s1 IH]; simpl; [done|]. by rewrite IH. Qed.

Lemma append_inj_r (p s1 s2 : string) : p +:+ s1 = p +:+ s2 → s1 = s2.
Proof. induction p as [|c p IH]; simpl; [done|]. intros [=]. auto. Qed.

(** The one pair of record names of equal length: no project name makes
    [<project>AAAA] and [www<project>A] the same. *)
Lemma apex_AAAA_is_not_www_A (p : string) : p +:+ "AAAA" ≠ "www" +:+ p +:+ "A".
Proof.
  induction p as [|c p IH]; [done|].
  simpl. intros [= -> Heq]. by apply IH.
Qed.

Lemma record_names_NoDup (p : string) :
  NoDup [ p +:+ "Cname" +:+ pretty 0; p +:+ "Cname" +:+ pretty 1;
          p +:+ "A"; "www" +:+ p +:+ "A";
          p +:+ "AAAA"; "www" +:+ p +:+ "AAAA" ].
Proof.
  change (pretty 0) with "0". change (pretty 1) with "1".
  assert (∀ x y : string, String.length x ≠ String.length y → x ≠ y) as Hlen
    by (intros x y Hne ->; done).
  pose proof (apex_AAAA_is_not_www_A p) as Hhard.
  repeat (apply NoDup_cons; split); [..|apply NoDup_nil_2];
    rewrite ?elem_of_cons, elem_of_nil; intros Hin;
    repeat (destruct Hin as [Heq|Hin]); try done;
    try (by apply append_inj_r in Heq);
    try (by apply (append_inj_r "www"), append_inj_r in Heq);
    try (by apply Hhard);
    try (by apply Hlen in Heq; [|rewrite !append_length; simpl; lia]).
Qed.

(** X7: the DNS records of a run have pairwise different logical names, whatever
    the project is called. *)
Theorem record_names_are_distinct engine project environment site domain :
  NoDup (map logicalName
           (List.filter (is_kind KRecord)
              (declarations (run engine project environment site domain).2))).
Proof.
  destruct (run_plan engine project environment site domain)
    as (a & _ & _ & Hpre & _).
  apply (prefix_filter (is_kind KRecord)), (prefix_map logicalName) in Hpre.
  destruct Hpre as [k Hk].
  assert (NoDup (map logicalName
                   (List.filter (is_kind KRecord)
                      (completeDeclarations project environment site domain a))))
    as Hall.
  { unfold completeDeclarations.
    rewrite !List.filter_app, filter_objects by done.
    apply (record_names_NoDup (Project.name project)). }
  rewrite Hk in Hall. by apply NoDup_app in Hall as [? _].
Qed.

(** X8: every bucket, object, certificate and distribution declaration of a run
    carries the same two tags, [project] and [environment], with the names
    of the project and of the environment, and no other tag. *)
Theorem tagged_with_project_and_environment engine project environment site
    domain d r tags :
  NewResource d r ∈ events (run engine project environment site domain).2 →
  tags_of d = Some tags →
  tags !! "project" = Some (String (Project.name project)) ∧
  tags !! "environment" = Some (String (Environment.name environment)) ∧
  ∀ k, k ≠ "project" → k ≠ "environment" → tags !! k = None.
Proof.
  intros Hin Htags. apply run_expected in Hin.
  assert (tags = ToStringMap (Tags.tags (tagsOf project environment))) as ->.
  { destruct d as [n a|n a|n a|n a|n a|n a|n a|n a]; simpl in Hin, Htags;
      simplify_eq.
    - by injection Hin as -> ->.
    - destruct Hin as (fs & b & f & _ & _ & _ & Heq). by injection Heq as -> ->.
    - by injection Hin as -> ->.
    - destruct Hin as (b & c & o & _ & _ & _ & Heq). by injection Heq as -> ->. }
  unfold ToStringMap, tagsOf. simpl. rewrite !lookup_fmap.
  split; [by rewrite lookup_insert_eq|]. split.
  - by rewrite lookup_insert_ne, lookup_singleton_eq.
  - intros k Hp He. rewrite lookup_fmap.
    by rewrite lookup_insert_ne, lookup_singleton_ne.
Qed.

Lemma tagged_with_project_and_environment_witness :
  (NewResource (S3BucketObject "index.html"
                  (bucketObjectArgs wwwSite (tagsOf stratusLabs dev) (Res 2)
                     {| DirEntry.Name := "index.html"; DirEntry.IsDir := false |}))
     (inr (Res 4)) ∈ events okRun.2 ∧
   tags_of (S3BucketObject "index.html"
              (bucketObjectArgs wwwSite (tagsOf stratusLabs dev) (Res 2)
                 {| DirEntry.Name := "index.html"; DirEntry.IsDir := false |}))
   = Some (ToStringMap (Tags.tags (tagsOf stratusLabs dev)))) ∧
  ToStringMap (Tags.tags (tagsOf stratusLabs dev)) !! "project"
  = Some (String "stratusLabs") ∧
  ToStringMap (Tags.tags (tagsOf stratusLabs dev)) !! "environment"
  = Some (String "dev") ∧
  ∀ k, k ≠ "project" → k ≠ "environment" →
       ToStringMap (Tags.tags (tagsOf stratusLabs dev)) !! k = None.
Proof.
  assert (NewResource (S3BucketObject "index.html"
                  (bucketObjectArgs wwwSite (tagsOf stratusLabs dev) (Res 2)
                     {| DirEntry.Name := "index.html"; DirEntry.IsDir := false |}))
            (inr (Res 4)) ∈ events okRun.2) as Hin
    by (apply (list_elem_of_lookup_2 _ 4%nat); vm_compute; reflexivity).
  split; [by split|].
  exact (tagged_with_project_and_environment okEngine stratusLabs dev wwwSite
           stratuslabsNet _ _ _ Hin eq_refl).
Defined.

(** X9: every bucket declaration of a run is registered as [<project>Bucket], is
    named [www.<domain>] and hosts a website with the index document
    [index.html] and the error document [error.html]. *)
Theorem bucket_hosts_the_www_site engine project environment site domain
    name args r :
  NewResource (S3Bucket name args) r
    ∈ events (run engine project environment site domain).2 →
  name = Project.name project +:+ "Bucket" ∧
  BucketArgs.Bucket args = String ("www." +:+ Domain.name domain) ∧
  BucketWebsiteArgs.IndexDocument (BucketArgs.Website args) = String "index.html" ∧
  BucketWebsiteArgs.ErrorDocument (BucketArgs.Website args) = String "error.html".
Proof.
  intros Hin. apply run_expected in Hin. simpl in Hin.
  by injection Hin as -> ->.
Qed.

Lemma bucket_hosts_the_www_site_witness :
  NewResource (S3Bucket "stratusLabsBucket"
                 (bucketArgs (webBucket stratuslabsNet) (tagsOf stratusLabs dev)))
    (inr (Res 2)) ∈ events okRun.2 ∧
  "stratusLabsBucket" = Project.name stratusLabs +:+ "Bucket" ∧
  BucketArgs.Bucket (bucketArgs (webBucket stratuslabsNet) (tagsOf stratusLabs dev))
  = String ("www." +:+ Domain.name stratuslabsNet) ∧
  BucketWebsiteArgs.IndexDocument
    (BucketArgs.Website
       (bucketArgs (webBucket stratuslabsNet) (tagsOf stratusLabs dev)))
  = String "index.html" ∧
  BucketWebsiteArgs.ErrorDocument
    (BucketArgs.Website
       (bucketArgs (webBucket stratuslabsNet) (tagsOf stratusLabs dev)))
  = String "error.html".
Proof.
  assert (NewResource (S3Bucket "stratusLabsBucket"
                 (bucketArgs (webBucket stratuslabsNet) (tagsOf stratusLabs dev)))
            (inr (Res 2)) ∈ events okRun.2) as Hin
    by (apply (list_elem_of_lookup_2 _ 2%nat); vm_compute; reflexivity).
  split; [exact Hin|].
  exact (bucket_hosts_the_www_site okEngine stratusLabs dev wwwSite stratuslabsNet
           _ _ _ Hin).
Defined.

(** X10: the distribution fits the bucket of the same run: its default cache
    behaviour targets its one origin, whose id is the identifier of the
    bucket, and its default root object is the bucket's index document; it
    is enabled, also for IPv6, speaks [http2and3] and does not use the
    default certificate. *)
Theorem distribution_serves_the_bucket engine project environment site domain
    dName dArgs dAnswer bName bArgs bucket :
  NewResource (CloudfrontDistribution dName dArgs) dAnswer
    ∈ events (run engine project environment site domain).2 →
  NewResource (S3Bucket bName bArgs) (inr bucket)
    ∈ events (run engine project environment site domain).2 →
  ∃ origin,
    DistributionArgs.Origins dArgs = [origin] ∧
    DistributionOriginArgs.OriginId origin = ID bucket ∧
    DistributionDefaultCacheBehaviorArgs.TargetOriginId
      (DistributionArgs.DefaultCacheBehavior dArgs)
    = DistributionOriginArgs.OriginId origin ∧
    DistributionArgs.DefaultRootObject dArgs
    = BucketWebsiteArgs.IndexDocument (BucketArgs.Website bArgs) ∧
    DistributionArgs.Enabled dArgs = true ∧
    DistributionArgs.IsIpv6Enabled dArgs = true ∧
    DistributionArgs.HttpVersion dArgs = String "http2and3" ∧
    DistributionViewerCertificateArgs.CloudfrontDefaultCertificate
      (DistributionArgs.ViewerCertificate dArgs) = false.
Proof.
  intros Hdist Hbucket.
  destruct (run_plan engine project environment site domain)
    as (a & _ & Hsub & _ & _).
  apply run_expected in Hdist as (b & c & o & Hb & _ & _ & Heq).
  apply run_expected in Hbucket as Hexp. simpl in Hexp.
  apply Hsub in Hb; [|done]. apply Hsub in Hbucket; [|done].
  apply plan_bucket in Hb as ->. apply plan_bucket in Hbucket as ->.
  injection Heq as -> ->. injection Hexp as -> ->.
  eexists. by repeat split.
Qed.

Lemma distribution_serves_the_bucket_witness :
  (NewResource (CloudfrontDistribution "stratusLabsDistribution" okDistributionArgs)
     (inr (Res 10)) ∈ events okRun.2 ∧
   NewResource (S3Bucket "stratusLabsBucket"
                  (bucketArgs (webBucket stratuslabsNet) (tagsOf stratusLabs dev)))
     (inr (Res 2)) ∈ events okRun.2) ∧
  ∃ origin,
    DistributionArgs.Origins okDistributionArgs = [origin] ∧
    DistributionOriginArgs.OriginId origin = ID (Res 2) ∧
    DistributionDefaultCacheBehaviorArgs.TargetOriginId
      (DistributionArgs.DefaultCacheBehavior okDistributionArgs)
    = DistributionOriginArgs.OriginId origin ∧
    DistributionArgs.DefaultRootObject okDistributionArgs
    = BucketWebsiteArgs.IndexDocument
        (BucketArgs.Website
           (bucketArgs (webBucket stratuslabsNet) (tagsOf stratusLabs dev))) ∧
    DistributionArgs.Enabled okDistributionArgs = true ∧
    DistributionArgs.IsIpv6Enabled okDistributionArgs = true ∧
    DistributionArgs.HttpVersion okDistributionArgs = String "http2and3" ∧
    DistributionViewerCertificateArgs.CloudfrontDefaultCertificate
      (DistributionArgs.ViewerCertificate okDistributionArgs) = false.
Proof.
  assert (NewResource
            (CloudfrontDistribution "stratusLabsDistribution" okDistributionArgs)
            (inr (Res 10)) ∈ events okRun.2) as Hdist
    by (apply (list_elem_of_lookup_2 _ 10%nat); vm_compute; reflexivity).
  assert (NewResource (S3Bucket "stratusLabsBucket"
                  (bucketArgs (webBucket stratuslabsNet) (tagsOf stratusLabs dev)))
            (inr (Res 2)) ∈ events okRun.2) as Hbucket
    by (apply (list_elem_of_lookup_2 _ 2%nat); vm_compute; reflexivity).
  split; [by split|].
  exact (distribution_serves_the_bucket okEngine stratusLabs dev wwwSite
           stratuslabsNet _ _ _ _ _ _ Hdist Hbucket).
Defined.

(** X11: the certificate covers what it is used for: the aliases of the
    distribution are the certificate's domain name followed by its
    alternative names, and the one alternative name is the name of the
    bucket. *)
Theorem certificate_covers_the_aliases engine project environment site domain
    dName dArgs dAnswer cName cArgs cAnswer bName bArgs bAnswer :
  NewResource (CloudfrontDistribution dName dArgs) dAnswer
    ∈ events (run engine project environment site domain).2 →
  NewResource (AcmCertificate cName cArgs) cAnswer
    ∈ events (run engine project environment site domain).2 →
  NewResource (S3Bucket bName bArgs) bAnswer
    ∈ events (run engine project environment site domain).2 →
  DistributionArgs.Aliases dArgs
  = CertificateArgs.DomainName cArgs
    :: CertificateArgs.SubjectAlternativeNames cArgs ∧
  CertificateArgs.SubjectAlternativeNames cArgs = [BucketArgs.Bucket bArgs].
Proof.
  intros Hdist Hcert Hbucket.
  apply run_expected in Hdist as (b & c & o & _ & _ & _ & Heq).
  apply run_expected in Hcert. apply run_expected in Hbucket.
  simpl in Hcert, Hbucket.
  injection Heq as -> ->. injection Hcert as -> ->. by injection Hbucket as -> ->.
Qed.

Lemma certificate_covers_the_aliases_witness :
  (NewResource (CloudfrontDistribution "stratusLabsDistribution" okDistributionArgs)
     (inr (Res 10)) ∈ events okRun.2 ∧
   NewResource (AcmCertificate "stratusLabsCert"
                  (certificateArgs stratuslabsNet (tagsOf stratusLabs dev)))
     (inr (Res 6)) ∈ events okRun.2 ∧
   NewResource (S3Bucket "stratusLabsBucket"
                  (bucketArgs (webBucket stratuslabsNet) (tagsOf stratusLabs dev)))
     (inr (Res 2)) ∈ events okRun.2) ∧
  DistributionArgs.Aliases okDistributionArgs
  = CertificateArgs.DomainName
      (certificateArgs stratuslabsNet (tagsOf stratusLabs dev))
    :: CertificateArgs.SubjectAlternativeNames
         (certificateArgs stratuslabsNet (tagsOf stratusLabs dev)) ∧
  CertificateArgs.SubjectAlternativeNames
    (certificateArgs stratuslabsNet (tagsOf stratusLabs dev))
  = [BucketArgs.Bucket
       (bucketArgs (webBucket stratuslabsNet) (tagsOf stratusLabs dev))].
Proof.
  assert (NewResource
            (CloudfrontDistribution "stratusLabsDistribution" okDistributionArgs)
            (inr (Res 10)) ∈ events okRun.2) as Hdist
    by (apply (list_elem_of_lookup_2 _ 10%nat); vm_compute; reflexivity).
  assert (NewResource (AcmCertificate "stratusLabsCert"
                  (certificateArgs stratuslabsNet (tagsOf stratusLabs dev)))
            (inr (Res 6)) ∈ events okRun.2) as Hcert
    by (apply (list_elem_of_lookup_2 _ 6%nat); vm_compute; reflexivity).
  assert (NewResource (S3Bucket "stratusLabsBucket"
                  (bucketArgs (webBucket stratuslabsNet) (tagsOf stratusLabs dev)))
            (inr (Res 2)) ∈ events okRun.2) as Hbucket
    by (apply (list_elem_of_lookup_2 _ 2%nat); vm_compute; reflexivity).
  split; [by repeat split|].
  exact (certificate_covers_the_aliases okEngine stratusLabs dev wwwSite
           stratuslabsNet _ _ _ _ _ _ _ _ _ Hdist Hcert Hbucket).
Defined.

(** X12: every DNS record of a run, also of one that fails later, is declared in
    the zone that the lookup of the same run returned, and is of one of two
    shapes: a [CNAME] record with a TTL of 60 and no alias, or an [A] or
    [AAAA] record without TTL or values and with a single alias whose target
    health is evaluated. *)
Theorem records_are_in_the_zone engine project environment site domain
    name args r :
  NewResource (Route53Record name args) r
    ∈ events (run engine project environment site domain).2 →
  ∃ zone,
    LookupZone {| LookupZoneArgs.Name := Some (Domain.name domain) |} (inr zone)
      ∈ events (run engine project environment site domain).2 ∧
    RecordArgs.ZoneId args = String (LookupZoneResult.Id zone) ∧
    ((RecordArgs.Type_ args = String "CNAME" ∧
      RecordArgs.Ttl args = Some 60 ∧
      RecordArgs.Aliases args = []) ∨
     ((RecordArgs.Type_ args = String "A" ∨ RecordArgs.Type_ args = String "AAAA") ∧
      RecordArgs.Ttl args = None ∧
      RecordArgs.Records args = [] ∧
      ∃ alias, RecordArgs.Aliases args = [alias] ∧
               RecordAliasArgs.EvaluateTargetHealth alias = true)).
Proof.
  intros Hin.
  apply run_expected in Hin
    as (zone & Hzone & [(cert & i & _ & _ & Heq)|
                        (b & c & o & dist & rec & _ & Hrec & Heq)]).
  - injection Heq as -> ->. exists zone. split; [done|]. split; [done|]. by left.
  - exists zone. split; [done|].
    destruct Heq as [Heq|Heq]; injection Heq as -> ->;
      (split; [done|]); right; (split; [by destruct Hrec as [-> | ->]; [left|right]|]);
      (split; [done|]); (split; [done|]); by eexists.
Qed.

Lemma records_are_in_the_zone_witness :
  NewResource (wwwRecordDecl stratusLabs stratuslabsNet
                 {| LookupZoneResult.Id := "Z0123456789" |} "AAAA" (Res 10))
    (inr (Res 14)) ∈ events okRun.2 ∧
  ∃ zone,
    LookupZone {| LookupZoneArgs.Name := Some "stratuslabs.net" |} (inr zone)
      ∈ events okRun.2 ∧
    RecordArgs.ZoneId
      (wwwRecordArgs {| LookupZoneResult.Id := "Z0123456789" |} stratuslabsNet
         "AAAA" (Res 10))
    = String (LookupZoneResult.Id zone).
Proof.
  assert (NewResource (wwwRecordDecl stratusLabs stratuslabsNet
                 {| LookupZoneResult.Id := "Z0123456789" |} "AAAA" (Res 10))
            (inr (Res 14)) ∈ events okRun.2) as Hin
    by (apply (list_elem_of_lookup_2 _ 14%nat); vm_compute; reflexivity).
  split; [exact Hin|].
  destruct (records_are_in_the_zone okEngine stratusLabs dev wwwSite
              stratuslabsNet _ _ _ Hin) as (zone & Hzone & Hid & _).
  by exists zone.
Defined.

(** X13: when the step that fails is the directory read or the zone lookup, the
    run has declared nothing at all: a missing site directory or a missing
    zone leaves the engine without a single resource of this stack. *)
Theorem no_listing_or_zone_no_declaration engine project environment site domain
    ev e :
  ev ∈ events (run engine project environment site domain).2 →
  error_of ev = Some e →
  declaration_of ev = None →
  declarations (run engine project environment site domain).2 = [] ∧
  (run engine project environment site domain).1 = Some e.
Proof.
  intros Hin Herr Hdecl.
  pose proof (run_outcome engine project environment site domain) as [_ Hout].
  unfold declarations.
  destruct (run engine project environment site domain) as [[e'|] ctx]; simpl in *.
  - destruct Hout as (_ & h & ev' & Hev & a & _ & [k Hk]).
    pose proof (completeLog_clean project environment site domain a) as Hclean.
    rewrite Hk in Hclean. rewrite Hev in Hin |- *.
    apply elem_of_app in Hin as [Hin|Hin].
    { apply Forall_app in Hclean as [Hclean _].
      apply Forall_app in Hclean as [Hclean _].
      rewrite Forall_forall in Hclean. apply Hclean in Hin. congruence. }
    apply list_elem_of_singleton in Hin as ->.
    rewrite error_of_failed in Herr. injection Herr as ->.
    rewrite declaration_of_failed in Hdecl. split; [|done].
    unfold completeLog in Hk.
    destruct h as [|x [|y h]]; simpl in Hk.
    + simpl. by rewrite declaration_of_failed, Hdecl.
    + injection Hk as <- _. simpl. by rewrite declaration_of_failed, Hdecl.
    + exfalso. injection Hk as _ _ Htail.
      assert (ev' ∈ (h ++ [ev']) ++ k) as Hev'
        by (rewrite !elem_of_app, list_elem_of_singleton; by left; right).
      rewrite <- Htail in Hev'.
      repeat first [ rewrite elem_of_app in Hev' | rewrite elem_of_cons in Hev' ].
      rewrite elem_of_nil in Hev'.
      destruct Hev' as [Hev'|[Hev'|[Hev'|Hev']]]; [by subst|by subst|..].
      * by apply elem_of_objectEvents in Hev' as (file & r & _ & ->).
      * repeat (destruct Hev' as [Hev'|Hev']; [by subst|]). done.
  - destruct Hout as (a & _ & Hev & _).
    pose proof (completeLog_clean project environment site domain a) as Hclean.
    rewrite <- Hev in Hclean. unfold clean in Hclean.
    rewrite Forall_forall in Hclean.
    apply Hclean in Hin. congruence.
Qed.

Lemma no_listing_or_zone_no_declaration_witness :
  (ReadDir "./www/_site/" (inl (Err "no such file or directory"))
     ∈ events noSiteRun.2 ∧
   error_of (ReadDir "./www/_site/" (inl (Err "no such file or directory")))
   = Some (Err "no such file or directory") ∧
   declaration_of (ReadDir "./www/_site/" (inl (Err "no such file or directory")))
   = None) ∧
  declarations noSiteRun.2 = [] ∧
  noSiteRun.1 = Some (Err "no such file or directory").
Proof.
  assert (ReadDir "./www/_site/" (inl (Err "no such file or directory"))
            ∈ events noSiteRun.2) as Hin
    by (apply (list_elem_of_lookup_2 _ 0%nat); vm_compute; reflexivity).
  split; [by repeat split|].
  exact (no_listing_or_zone_no_declaration noSiteEngine stratusLabs dev wwwSite
           stratuslabsNet _ _ Hin eq_refl eq_refl).
Defined.
